(** * PluginEditor: the WebView editor of the BeatConnect plugin template

    A shallow embedding of [templates/src/PluginEditor.cpp].  The editor
    builds three JUCE relays, a [WebBrowserComponent] with a resource
    provider serving the bundled web UI, navigates it to a start page chosen
    by the build mode, binds the relays to the processor's parameters and
    emits a ["visualizerData"] event on every timer tick.

    JUCE itself is not part of the repository.  Its file API is taken as an
    interface ([FileApi]) with one executable model of a POSIX disk
    ([PosixDisk]); its strings are embedded as byte strings with the
    operations the editor calls. *)

From Stdlib Require Import Strings.String Strings.Ascii Strings.Byte.
From Stdlib Require Import Lists.List Bool.Bool Arith.PeanoNat NArith.BinNat.
From Stdlib Require Import micromega.Lia.
Import ListNotations.

Local Open Scope string_scope.
Local Open Scope list_scope.

(** ** juce::String, as far as the editor uses it *)

Module JString.

(** [String::startsWith]: the other string is compared against the same
    number of leading characters. *)
Definition startsWith (s other : string) : bool := String.prefix other s.

(** [String::substring (start)]: everything from index [start] on. *)
Fixpoint substring (s : string) (start : nat) : string :=
  match start, s with
  | O, _ => s
  | S _, EmptyString => EmptyString
  | S n, String _ rest => substring rest n
  end.

Definition isEmpty (s : string) : bool :=
  match s with
  | EmptyString => true
  | String _ _ => false
  end.

(** [String::endsWith] walks both strings from their terminators towards
    the front and stops at the first difference; it succeeds when the other
    string is used up. *)
Fixpoint matchBackwards (tail otherTail : list ascii) {struct otherTail}
  : bool :=
  match otherTail with
  | [] => true
  | c :: otherRest =>
      match tail with
      | [] => false
      | d :: rest => if Ascii.eqb d c then matchBackwards rest otherRest else false
      end
  end.

Definition endsWith (s other : string) : bool :=
  matchBackwards (rev (list_ascii_of_string s)) (rev (list_ascii_of_string other)).

End JString.

Import JString.

(** ** juce::File, as an interface *)

Definition MemoryBlock := list byte.

(** The operations of [juce::File] the editor calls.  [defaultFile] is the
    default-constructed [juce::File()]; [currentExecutableFile] and
    [tempDirectory] are the two special locations asked for.
    [existsAsFile] and [loadFileAsData] observe the disk; [loadFileAsData]
    appends what it read to the block it is given and returns its success
    flag together with the block. *)
Class FileApi (File : Type) : Type := {
  defaultFile : File;
  currentExecutableFile : File;
  tempDirectory : File;
  getParentDirectory : File -> File;
  getChildFile : File -> string -> File;
  existsAsFile : File -> bool;
  loadFileAsData : File -> MemoryBlock -> bool * MemoryBlock
}.

(** What the documentation of [juce::File] promises about the disk:
    [fileContents] gives the bytes of every regular file; a load that
    reports success has appended exactly those bytes, one that reports
    failure on a regular file has appended some first part of them
    (nothing, if the file could not be opened). *)
Class FileApiLaws (File : Type) `{FileApi File}
    (fileContents : File -> option (list byte)) : Prop := {
  existsAsFile_contents :
    forall f, existsAsFile f = true <-> fileContents f <> None;
  loadFileAsData_success :
    forall f block block',
      loadFileAsData f block = (true, block') ->
      exists bytes, fileContents f = Some bytes /\ block' = block ++ bytes;
  loadFileAsData_failure :
    forall f block block',
      existsAsFile f = true ->
      loadFileAsData f block = (false, block') ->
      exists got rest,
        block' = block ++ got /\ fileContents f = Some (got ++ rest)
}.

(** ** The resource provider (the lambda given to [withResourceProvider]) *)

(** [juce::WebBrowserComponent::Resource]. *)
Record Resource : Type := {
  data : list byte;
  mimeType : string
}.

(** Lines 77-81: one leading slash is dropped, the empty path is the root
    document. *)
Definition requestedPath (url : string) : string :=
  let path := url in
  let path := if startsWith path "/" then substring path 1 else path in
  let path := if isEmpty path then "index.html" else path in
  path.

(** Lines 88-97: the MIME type, by the ending of the path. *)
Definition mimeTypeFor (path : string) : string :=
  if endsWith path ".html" then "text/html"
  else if endsWith path ".css" then "text/css"
  else if endsWith path ".js" then "application/javascript"
  else if endsWith path ".json" then "application/json"
  else if endsWith path ".png" then "image/png"
  else if endsWith path ".jpg" || endsWith path ".jpeg" then "image/jpeg"
  else if endsWith path ".svg" then "image/svg+xml"
  else if endsWith path ".woff" then "font/woff"
  else if endsWith path ".woff2" then "font/woff2"
  else "application/octet-stream".

(** The table of section 4.1, in the order of the [if] chain. *)
Definition mimeTable : list (string * string) :=
  [ ("html", "text/html"); ("css", "text/css"); ("js", "application/javascript");
    ("json", "application/json"); ("png", "image/png"); ("jpg", "image/jpeg");
    ("jpeg", "image/jpeg"); ("svg", "image/svg+xml"); ("woff", "font/woff");
    ("woff2", "font/woff2") ].

Section ResourceProvider.

Context {File : Type} `{FileApi File}.

(** Lines 75-108.  [resourcesDir] is the member the lambda reads through
    its captured [this]; [None] is [std::nullopt]. *)
Definition resourceProvider (resourcesDir : File) (url : string)
  : option Resource :=
  let path := requestedPath url in
  let file := getChildFile resourcesDir path in
  if negb (existsAsFile file) then None
  else
    let mime := mimeTypeFor path in
    let block : MemoryBlock := [] in
    let block := snd (loadFileAsData file block) in
    Some {| data := block; mimeType := mime |}.

End ResourceProvider.

(** ** Relays, options and the browser component *)

(** [WebSliderRelay], [WebToggleButtonRelay] and [WebComboBoxRelay]. *)
Inductive RelayKind : Type :=
| WebSliderRelay
| WebToggleButtonRelay
| WebComboBoxRelay.

Record Relay : Type := {
  relayName : string;
  relayKind : RelayKind
}.

(** [juce::DynamicObject], with its property values in their text form, and
    the [juce::var] wrapping one. *)
Record DynamicObject : Type := {
  properties : list (string * string)
}.

Inductive var : Type :=
| var_void
| var_object (object : DynamicObject).

Inductive Backend : Type :=
| defaultBackend
| webview2.

(** The parameters the editor reads from its surroundings: the processor's
    parameter tree and [ParameterIDs.h], the [..._DEV_MODE] macro set in
    CMakeLists.txt and [WebBrowserComponent::getResourceProviderRoot()]. *)
Record RangedAudioParameter : Type := {
  paramID : string
}.

Record Processor : Type := {
  apvts : list RangedAudioParameter
}.

Record ParamIDs : Type := {
  gain : string;
  mix : string;
  bypass : string
}.

Record Build : Type := {
  DEV_MODE : bool;
  getResourceProviderRoot : string;
  paramIDs : ParamIDs
}.

(** Line 16. *)
Definition DEV_SERVER_URL : string := "http://localhost:5173".

(** [AudioProcessorValueTreeState::getParameter]: null for an unknown id. *)
Definition getParameter (p : Processor) (id : string)
  : option RangedAudioParameter :=
  find (fun q => String.eqb (paramID q) id) (apvts p).

(** The gesture state of an attachment (section 3 of the spec). *)
Inductive GestureState : Type :=
| Idle
| Dragging.

Record Attachment : Type := {
  attachedParameter : RangedAudioParameter;
  attachedRelay : Relay;
  gestureState : GestureState
}.

(** What the constructor does, in program order. *)
Inductive Action : Type :=
| RelayCreated (r : Relay)
| ResourcesDirAssigned
| OptionsFrom (r : Relay)
| WebBrowserComponentConstructed (registered : list Relay)
| AddedAndMadeVisible
| WentToURL (url : string)
| AttachmentCreated (parameter : string) (r : Relay)
| SizeSet (width height : nat)
| ResizableSet (allowHostToResize useBottomRightCornerResizer : bool)
| TimerStarted (hz : nat).

Section Editor.

Context {File : Type} `{FileApi File}.

Record WinWebView2 : Type := {
  backgroundColour : N;
  statusBarDisabled : bool;
  userDataFolder : option File
}.

(** [WebBrowserComponent::Options]; the provider is kept as a function of
    the editor member it reads. *)
Record Options : Type := {
  backend : Backend;
  nativeIntegrationEnabled : bool;
  resourceProviderOption : option (File -> string -> option Resource);
  relayOptions : list Relay;
  winWebView2 : WinWebView2
}.

Definition Options_default : Options :=
  {| backend := defaultBackend;
     nativeIntegrationEnabled := false;
     resourceProviderOption := None;
     relayOptions := [];
     winWebView2 := {| backgroundColour := 0%N; statusBarDisabled := false;
                       userDataFolder := None |} |}.

Definition withBackend (b : Backend) (o : Options) : Options :=
  {| backend := b;
     nativeIntegrationEnabled := nativeIntegrationEnabled o;
     resourceProviderOption := resourceProviderOption o;
     relayOptions := relayOptions o;
     winWebView2 := winWebView2 o |}.

Definition withNativeIntegrationEnabled (o : Options) : Options :=
  {| backend := backend o;
     nativeIntegrationEnabled := true;
     resourceProviderOption := resourceProviderOption o;
     relayOptions := relayOptions o;
     winWebView2 := winWebView2 o |}.

Definition withResourceProvider
    (provider : File -> string -> option Resource) (o : Options) : Options :=
  {| backend := backend o;
     nativeIntegrationEnabled := nativeIntegrationEnabled o;
     resourceProviderOption := Some provider;
     relayOptions := relayOptions o;
     winWebView2 := winWebView2 o |}.

Definition withOptionsFrom (r : Relay) (o : Options) : Options :=
  {| backend := backend o;
     nativeIntegrationEnabled := nativeIntegrationEnabled o;
     resourceProviderOption := resourceProviderOption o;
     relayOptions := relayOptions o ++ [r];
     winWebView2 := winWebView2 o |}.

Definition withWinWebView2Options (w : WinWebView2) (o : Options) : Options :=
  {| backend := backend o;
     nativeIntegrationEnabled := nativeIntegrationEnabled o;
     resourceProviderOption := resourceProviderOption o;
     relayOptions := relayOptions o;
     winWebView2 := w |}.

(** The browser component: the options it was built from, the page it was
    last sent to, whether it is showing, the events delivered to the page
    and its bounds. *)
Record WebBrowserComponent : Type := {
  browserOptions : Options;
  currentURL : option string;
  browserVisible : bool;
  emittedEvents : list (string * var);
  browserBounds : nat * nat * nat * nat
}.

Definition WebBrowserComponent_new (o : Options) : WebBrowserComponent :=
  {| browserOptions := o;
     currentURL := None;
     browserVisible := false;
     emittedEvents := [];
     browserBounds := (0, 0, 0, 0) |}.

Definition setVisible (b : bool) (w : WebBrowserComponent) : WebBrowserComponent :=
  {| browserOptions := browserOptions w;
     currentURL := currentURL w;
     browserVisible := b;
     emittedEvents := emittedEvents w;
     browserBounds := browserBounds w |}.

Definition goToURL (url : string) (w : WebBrowserComponent) : WebBrowserComponent :=
  {| browserOptions := browserOptions w;
     currentURL := Some url;
     browserVisible := browserVisible w;
     emittedEvents := emittedEvents w;
     browserBounds := browserBounds w |}.

Definition setBounds (r : nat * nat * nat * nat) (w : WebBrowserComponent)
  : WebBrowserComponent :=
  {| browserOptions := browserOptions w;
     currentURL := currentURL w;
     browserVisible := browserVisible w;
     emittedEvents := emittedEvents w;
     browserBounds := r |}.

(** Modelled from the spec: [WebBrowserComponent::emitEventIfBrowserIsVisible]
    is JUCE's and not in the sources.  Section 4.5: the visibility guard is
    checked before emission; when the UI is not visible the call does
    nothing, otherwise the event is delivered. *)
Definition emitEventIfBrowserIsVisible (eventId : string) (object : var)
    (w : WebBrowserComponent) : WebBrowserComponent :=
  if browserVisible w then
    {| browserOptions := browserOptions w;
       currentURL := currentURL w;
       browserVisible := browserVisible w;
       emittedEvents := emittedEvents w ++ [(eventId, object)];
       browserBounds := browserBounds w |}
  else w.

(** The members of the editor, and the log of what its constructor did. *)
Record Editor : Type := {
  gainRelay : option Relay;
  mixRelay : option Relay;
  bypassRelay : option Relay;
  resourcesDir : File;
  webView : option WebBrowserComponent;
  gainAttachment : option Attachment;
  mixAttachment : option Attachment;
  bypassAttachment : option Attachment;
  editorSize : nat * nat;
  timerHz : option nat;
  history : list Action
}.

Definition Editor_blank : Editor :=
  {| gainRelay := None; mixRelay := None; bypassRelay := None;
     resourcesDir := defaultFile;
     webView := None;
     gainAttachment := None; mixAttachment := None; bypassAttachment := None;
     editorSize := (0, 0);
     timerHz := None;
     history := [] |}.

(** The members are threaded as state; dereferencing a null pointer stops
    the run ([None]). *)
Definition Ed (A : Type) : Type := Editor -> option (A * Editor).

Definition ret {A : Type} (a : A) : Ed A := fun e => Some (a, e).

Definition bind {A B : Type} (m : Ed A) (k : A -> Ed B) : Ed B :=
  fun e =>
    match m e with
    | Some (a, e') => k a e'
    | None => None
    end.

Definition gets {A : Type} (field : Editor -> A) : Ed A :=
  fun e => Some (field e, e).

Definition modify (f : Editor -> Editor) : Ed unit :=
  fun e => Some (tt, f e).

(** [*p] for a [unique_ptr] or a raw pointer. *)
Definition deref {A : Type} (p : option A) : Ed A :=
  fun e =>
    match p with
    | Some a => Some (a, e)
    | None => None
    end.

Local Notation "x <- m ;; k" := (bind m (fun x => k))
  (at level 61, m at next level, right associativity).
Local Notation "m ;; k" := (bind m (fun _ => k))
  (at level 61, right associativity).

Definition set_gainRelay (r : option Relay) (e : Editor) : Editor :=
  {| gainRelay := r; mixRelay := mixRelay e; bypassRelay := bypassRelay e;
     resourcesDir := resourcesDir e; webView := webView e;
     gainAttachment := gainAttachment e; mixAttachment := mixAttachment e;
     bypassAttachment := bypassAttachment e; editorSize := editorSize e;
     timerHz := timerHz e; history := history e |}.

Definition set_mixRelay (r : option Relay) (e : Editor) : Editor :=
  {| gainRelay := gainRelay e; mixRelay := r; bypassRelay := bypassRelay e;
     resourcesDir := resourcesDir e; webView := webView e;
     gainAttachment := gainAttachment e; mixAttachment := mixAttachment e;
     bypassAttachment := bypassAttachment e; editorSize := editorSize e;
     timerHz := timerHz e; history := history e |}.

Definition set_bypassRelay (r : option Relay) (e : Editor) : Editor :=
  {| gainRelay := gainRelay e; mixRelay := mixRelay e; bypassRelay := r;
     resourcesDir := resourcesDir e; webView := webView e;
     gainAttachment := gainAttachment e; mixAttachment := mixAttachment e;
     bypassAttachment := bypassAttachment e; editorSize := editorSize e;
     timerHz := timerHz e; history := history e |}.

Definition set_resourcesDir (d : File) (e : Editor) : Editor :=
  {| gainRelay := gainRelay e; mixRelay := mixRelay e; bypassRelay := bypassRelay e;
     resourcesDir := d; webView := webView e;
     gainAttachment := gainAttachment e; mixAttachment := mixAttachment e;
     bypassAttachment := bypassAttachment e; editorSize := editorSize e;
     timerHz := timerHz e; history := history e |}.

Definition set_webView (w : option WebBrowserComponent) (e : Editor) : Editor :=
  {| gainRelay := gainRelay e; mixRelay := mixRelay e; bypassRelay := bypassRelay e;
     resourcesDir := resourcesDir e; webView := w;
     gainAttachment := gainAttachment e; mixAttachment := mixAttachment e;
     bypassAttachment := bypassAttachment e; editorSize := editorSize e;
     timerHz := timerHz e; history := history e |}.

Definition set_gainAttachment (a : option Attachment) (e : Editor) : Editor :=
  {| gainRelay := gainRelay e; mixRelay := mixRelay e; bypassRelay := bypassRelay e;
     resourcesDir := resourcesDir e; webView := webView e;
     gainAttachment := a; mixAttachment := mixAttachment e;
     bypassAttachment := bypassAttachment e; editorSize := editorSize e;
     timerHz := timerHz e; history := history e |}.

Definition set_mixAttachment (a : option Attachment) (e : Editor) : Editor :=
  {| gainRelay := gainRelay e; mixRelay := mixRelay e; bypassRelay := bypassRelay e;
     resourcesDir := resourcesDir e; webView := webView e;
     gainAttachment := gainAttachment e; mixAttachment := a;
     bypassAttachment := bypassAttachment e; editorSize := editorSize e;
     timerHz := timerHz e; history := history e |}.

Definition set_bypassAttachment (a : option Attachment) (e : Editor) : Editor :=
  {| gainRelay := gainRelay e; mixRelay := mixRelay e; bypassRelay := bypassRelay e;
     resourcesDir := resourcesDir e; webView := webView e;
     gainAttachment := gainAttachment e; mixAttachment := mixAttachment e;
     bypassAttachment := a; editorSize := editorSize e;
     timerHz := timerHz e; history := history e |}.

Definition set_editorSize (s : nat * nat) (e : Editor) : Editor :=
  {| gainRelay := gainRelay e; mixRelay := mixRelay e; bypassRelay := bypassRelay e;
     resourcesDir := resourcesDir e; webView := webView e;
     gainAttachment := gainAttachment e; mixAttachment := mixAttachment e;
     bypassAttachment := bypassAttachment e; editorSize := s;
     timerHz := timerHz e; history := history e |}.

Definition set_timerHz (t : option nat) (e : Editor) : Editor :=
  {| gainRelay := gainRelay e; mixRelay := mixRelay e; bypassRelay := bypassRelay e;
     resourcesDir := resourcesDir e; webView := webView e;
     gainAttachment := gainAttachment e; mixAttachment := mixAttachment e;
     bypassAttachment := bypassAttachment e; editorSize := editorSize e;
     timerHz := t; history := history e |}.

Definition record (a : Action) : Ed unit :=
  modify (fun e =>
    {| gainRelay := gainRelay e; mixRelay := mixRelay e; bypassRelay := bypassRelay e;
       resourcesDir := resourcesDir e; webView := webView e;
       gainAttachment := gainAttachment e; mixAttachment := mixAttachment e;
       bypassAttachment := bypassAttachment e; editorSize := editorSize e;
       timerHz := timerHz e; history := history e ++ [a] |}).


(** ** The editor's member functions *)

Variable build : Build.

(** Lines 50-54: [xRelay = std::make_unique<...>(name)]. *)
Definition makeRelay (kind : RelayKind) (name : string) : Ed Relay :=
  let r := {| relayName := name; relayKind := kind |} in
  record (RelayCreated r) ;;
  ret r.

(** [withOptionsFrom] applied to a dereferenced relay pointer. *)
Definition optionsFrom (relay : option Relay) (o : Options) : Ed Options :=
  r <- deref relay ;;
  record (OptionsFrom r) ;;
  ret (withOptionsFrom r o).

(** Lines 40-137. *)
Definition setupWebView : Ed unit :=
  (* STEP 1: the relays *)
  r <- makeRelay WebSliderRelay "gain" ;;
  modify (set_gainRelay (Some r)) ;;
  r <- makeRelay WebSliderRelay "mix" ;;
  modify (set_mixRelay (Some r)) ;;
  r <- makeRelay WebToggleButtonRelay "bypass" ;;
  modify (set_bypassRelay (Some r)) ;;
  (* STEP 2: the resources directory *)
  modify (set_resourcesDir
            (getChildFile
               (getChildFile (getParentDirectory currentExecutableFile) "Resources")
               "WebUI")) ;;
  record ResourcesDirAssigned ;;
  (* STEP 3: the options and the browser component *)
  let options := Options_default in
  let options := withBackend webview2 options in
  let options := withNativeIntegrationEnabled options in
  let options := withResourceProvider resourceProvider options in
  relay <- gets gainRelay ;;
  options <- optionsFrom relay options ;;
  relay <- gets mixRelay ;;
  options <- optionsFrom relay options ;;
  relay <- gets bypassRelay ;;
  options <- optionsFrom relay options ;;
  let options :=
    withWinWebView2Options
      {| backgroundColour := 0xff1a1a1a%N;
         statusBarDisabled := true;
         userDataFolder := Some (getChildFile tempDirectory "{{PLUGIN_NAME}}_WebView2") |}
      options in
  record (WebBrowserComponentConstructed (relayOptions options)) ;;
  modify (set_webView (Some (WebBrowserComponent_new options))) ;;
  w <- (p <- gets webView ;; deref p) ;;
  record AddedAndMadeVisible ;;
  modify (set_webView (Some (setVisible true w))) ;;
  (* STEP 4: the start page, by build mode *)
  w <- (p <- gets webView ;; deref p) ;;
  if DEV_MODE build then
    record (WentToURL DEV_SERVER_URL) ;;
    modify (set_webView (Some (goToURL DEV_SERVER_URL w)))
  else
    record (WentToURL (getResourceProviderRoot build)) ;;
    modify (set_webView (Some (goToURL (getResourceProviderRoot build) w))).

(** One [std::make_unique] of an attachment: the parameter looked up in the
    tree and the relay are both dereferenced. *)
Definition makeAttachment (p : Processor) (id : string) (relay : option Relay)
  : Ed Attachment :=
  parameter <- deref (getParameter p id) ;;
  r <- deref relay ;;
  record (AttachmentCreated (paramID parameter) r) ;;
  ret {| attachedParameter := parameter; attachedRelay := r; gestureState := Idle |}.

(** Lines 140-166; [p] is [processorRef]. *)
Definition setupRelaysAndAttachments (p : Processor) : Ed unit :=
  relay <- gets gainRelay ;;
  a <- makeAttachment p (gain (paramIDs build)) relay ;;
  modify (set_gainAttachment (Some a)) ;;
  relay <- gets mixRelay ;;
  a <- makeAttachment p (mix (paramIDs build)) relay ;;
  modify (set_mixAttachment (Some a)) ;;
  relay <- gets bypassRelay ;;
  a <- makeAttachment p (bypass (paramIDs build)) relay ;;
  modify (set_bypassAttachment (Some a)).

(** Lines 206-210. *)
Definition resized : Ed unit :=
  w <- gets webView ;;
  match w with
  | None => ret tt
  | Some w =>
      size <- gets editorSize ;;
      modify (set_webView (Some (setBounds (0, 0, fst size, snd size) w)))
  end.

(** [Component::setSize]: the new size is stored and, when it differs from
    the old one, the component's own [resized] is called. *)
Definition setSize (width height : nat) : Ed unit :=
  old <- gets editorSize ;;
  record (SizeSet width height) ;;
  modify (set_editorSize (width, height)) ;;
  if Nat.eqb (fst old) width && Nat.eqb (snd old) height then ret tt
  else resized.

(** Lines 19-32: the constructor. *)
Definition Editor_new (p : Processor) : Ed unit :=
  setupWebView ;;
  setupRelaysAndAttachments p ;;
  setSize 800 500 ;;
  record (ResizableSet false false) ;;
  record (TimerStarted 30) ;;
  modify (set_timerHz (Some 30)).

(** The editor a host gets for a processor, if construction goes through. *)
Definition createEditor (p : Processor) : option Editor :=
  match Editor_new p Editor_blank with
  | Some (_, e) => Some e
  | None => None
  end.

(** Lines 34-37: the destructor. *)
Definition Editor_delete : Ed unit :=
  modify (set_timerHz None).

(** Lines 174-197. *)
Definition sendVisualizerData : Ed unit :=
  w <- gets webView ;;
  match w with
  | None => ret tt
  | Some w =>
      let data := {| properties := [] |} in
      modify (set_webView
                (Some (emitEventIfBrowserIsVisible "visualizerData" (var_object data) w)))
  end.

(** Lines 169-172. *)
Definition timerCallback : Ed unit := sendVisualizerData.

(** Lines 200-204: painting touches the graphics context only. *)
Definition paint : Ed unit := ret tt.

(** The browser calling the provider installed in its options; the lambda
    reads [resourcesDir] through [this] and writes nothing. *)
Definition provideResource (url : string) : Ed (option Resource) :=
  w <- gets webView ;;
  match w with
  | None => ret None
  | Some w =>
      match resourceProviderOption (browserOptions w) with
      | None => ret None
      | Some provider =>
          dir <- gets resourcesDir ;;
          ret (provider dir url)
      end
  end.

(** ** The life of an editor: what the host and the browser may call *)

Inductive Callback : Type :=
| TimerTick
| Paint
| Resized
| ResourceRequested (url : string)
| BrowserShown (visible : bool).

Definition handle (c : Callback) : Ed unit :=
  match c with
  | TimerTick => timerCallback
  | Paint => paint
  | Resized => resized
  | ResourceRequested url => provideResource url ;; ret tt
  | BrowserShown visible =>
      w <- gets webView ;;
      match w with
      | None => ret tt
      | Some w => modify (set_webView (Some (setVisible visible w)))
      end
  end.

Fixpoint run (cs : list Callback) (e : Editor) : option Editor :=
  match cs with
  | [] => Some e
  | c :: rest =>
      match handle c e with
      | Some (_, e') => run rest e'
      | None => None
      end
  end.

(** The names and kinds the browser component was built with. *)
Definition registeredRelays (e : Editor) : list Relay :=
  match webView e with
  | Some w => relayOptions (browserOptions w)
  | None => []
  end.

Definition ownedRelays (e : Editor) : list (option Relay) :=
  [gainRelay e; mixRelay e; bypassRelay e].


(** ** The asset server: which requests reach the provider *)

Inductive FetchResult : Type :=
| Served (r : Resource)
| DefaultHandling
| Network (url : string).

(** Modelled from the spec: the browser's fetch interception is JUCE's and
    not in the sources.  Sections 4.2 and 6: a request addressed to the
    asset server's synthetic root is intercepted, the path after the root is
    given to the resolver, whose result is returned verbatim, NotFound
    letting the default handling proceed; any other request goes to the
    network origin it names. *)
Definition fetch (e : Editor) (url : string) : FetchResult :=
  let root := getResourceProviderRoot build in
  if startsWith url root then
    match provideResource (substring url (String.length root)) e with
    | Some (Some r, _) => Served r
    | _ => DefaultHandling
    end
  else Network url.

End Editor.

Arguments Options File : clear implicits.
Arguments WebBrowserComponent File : clear implicits.
Arguments Editor File : clear implicits.

(** ** The attachment protocol *)

Module AttachmentProtocol.

Section Protocol.

(** The value type of the relay kind (a float, a flag or a choice index). *)
Variable Value : Type.

(** What the UI transport tells an attachment. *)
Inductive UiSignal : Type :=
| InteractionStarted
| ValueChanged (v : Value)
| InteractionFinished.

(** What an attachment tells its native parameter. *)
Inductive ParameterSignal : Type :=
| BeginGesture
| SetValue (v : Value)
| EndGesture.

(** Modelled from the spec: the attachment classes are JUCE's and not in the
    sources.  Section 4.4: "interaction started" takes Idle to Dragging and
    begins a change gesture, and is a no-op while already Dragging; a value
    change is written to the parameter in either state; "interaction
    finished" takes Dragging to Idle and ends the gesture.  The spec names
    no transition for "interaction finished" in Idle; none is taken. *)
Definition step (a : Attachment) (s : UiSignal)
  : Attachment * list ParameterSignal :=
  let become (g : GestureState) :=
    {| attachedParameter := attachedParameter a;
       attachedRelay := attachedRelay a;
       gestureState := g |} in
  match s, gestureState a with
  | InteractionStarted, Idle => (become Dragging, [BeginGesture])
  | InteractionStarted, Dragging => (a, [])
  | ValueChanged v, _ => (a, [SetValue v])
  | InteractionFinished, Dragging => (become Idle, [EndGesture])
  | InteractionFinished, Idle => (a, [])
  end.

(** A sequence of UI signals, with everything that reaches the parameter. *)
Fixpoint deliver (a : Attachment) (signals : list UiSignal)
  : Attachment * list ParameterSignal :=
  match signals with
  | [] => (a, [])
  | s :: rest =>
      let (a', out) := step a s in
      let (a'', out') := deliver a' rest in
      (a'', out ++ out')
  end.

Definition isBegin (p : ParameterSignal) : bool :=
  match p with BeginGesture => true | _ => false end.

Definition isEnd (p : ParameterSignal) : bool :=
  match p with EndGesture => true | _ => false end.

Definition begins (out : list ParameterSignal) : nat :=
  List.length (filter isBegin out).

Definition ends (out : list ParameterSignal) : nat :=
  List.length (filter isEnd out).

(** The signals a UI control sends between the start and the finish of one
    interaction: value changes, and possibly stray repeated starts. *)
Definition duringInteraction (s : UiSignal) : bool :=
  match s with
  | InteractionFinished => false
  | _ => true
  end.

End Protocol.

(** The number of gestures an attachment has open. *)
Definition gesturesOpen (a : Attachment) : nat :=
  match gestureState a with
  | Dragging => 1
  | Idle => 0
  end.

Arguments InteractionStarted {Value}.
Arguments InteractionFinished {Value}.
Arguments ValueChanged {Value} v.
Arguments BeginGesture {Value}.
Arguments EndGesture {Value}.
Arguments SetValue {Value} v.
Arguments step {Value} a s.
Arguments deliver {Value} a signals.
Arguments begins {Value} out.
Arguments ends {Value} out.
Arguments isBegin {Value} p.
Arguments isEnd {Value} p.
Arguments duringInteraction {Value} s.

End AttachmentProtocol.

(** ** A POSIX disk, as one implementation of the file interface

    Paths are absolute and kept as their components; a regular file has its
    stored bytes, whether it can be opened for reading, and how many bytes
    a read delivers before it stops. *)

Module PosixDisk.

Definition Path : Type := list string.

Record RegularFile : Type := {
  stored : list byte;
  opens : bool;
  delivers : nat
}.

Inductive Node : Type :=
| Directory
| Regular (f : RegularFile).

Definition Disk : Type := list (Path * Node).

Fixpoint pathEqb (p q : Path) : bool :=
  match p, q with
  | [], [] => true
  | a :: p', b :: q' => String.eqb a b && pathEqb p' q'
  | _, _ => false
  end.

Fixpoint lookup (d : Disk) (p : Path) : option Node :=
  match d with
  | [] => None
  | (q, n) :: rest => if pathEqb q p then Some n else lookup rest p
  end.

(** The components of a path string, split at the separator. *)
Fixpoint components (s current : string) : list string :=
  match s with
  | EmptyString => [current]
  | String c rest =>
      if Ascii.eqb c "/" then current :: components rest EmptyString
      else components rest (current ++ String c EmptyString)
  end.

(** One component followed from a directory: empty and ["."] stay, [".."]
    goes to the parent, a name goes down. *)
Definition enter (p : Path) (name : string) : Path :=
  if String.eqb name "" then p
  else if String.eqb name "." then p
  else if String.eqb name ".." then removelast p
  else p ++ [name].

(** [File::getChildFile] as documented: a relative path is followed from
    the file, [".."] included; an absolute one replaces it. *)
Definition childFile (base : Path) (relative : string) : Path :=
  fold_left enter (components relative EmptyString)
            (if startsWith relative "/" then [] else base).

(** [File::isAChildOf]: the parent's path is a proper prefix. *)
Fixpoint isAChildOf (p potentialParent : Path) : bool :=
  match potentialParent, p with
  | [], [] => false
  | [], _ :: _ => true
  | _ :: _, [] => false
  | a :: parent', b :: p' => String.eqb a b && isAChildOf p' parent'
  end.

Definition existsAsRegularFile (d : Disk) (p : Path) : bool :=
  match lookup d p with
  | Some (Regular _) => true
  | _ => false
  end.

(** [File::loadFileAsData]: false for a missing file; otherwise the stream
    must open and the bytes read, which are appended to the block, must be
    as many as the size of the file. *)
Definition load (d : Disk) (p : Path) (block : MemoryBlock)
  : bool * MemoryBlock :=
  match lookup d p with
  | Some (Regular f) =>
      if opens f then
        let got := firstn (delivers f) (stored f) in
        (Nat.eqb (List.length (stored f)) (List.length got), block ++ got)
      else (false, block)
  | _ => (false, block)
  end.

Definition contents (d : Disk) (p : Path) : option (list byte) :=
  match lookup d p with
  | Some (Regular f) => Some (stored f)
  | _ => None
  end.

#[export] Instance api (d : Disk) (executable temp : Path) : FileApi Path := {|
  defaultFile := [];
  currentExecutableFile := executable;
  tempDirectory := temp;
  getParentDirectory := @removelast string;
  getChildFile := childFile;
  existsAsFile := existsAsRegularFile d;
  loadFileAsData := load d
|}.

(** *** A plugin installed under /opt/plugin *)

Definition readable (text : string) : Node :=
  let bytes := list_byte_of_string text in
  Regular {| stored := bytes; opens := true; delivers := List.length bytes |}.

Definition webUI : Path := ["opt"; "plugin"; "Resources"; "WebUI"].

Definition installed : Disk :=
  [ (["opt"], Directory);
    (["opt"; "plugin"], Directory);
    (["opt"; "plugin"; "Plugin.so"], readable "ELF");
    (["opt"; "plugin"; "Resources"], Directory);
    (["opt"; "plugin"; "Resources"; "secret"], readable "key");
    (webUI, Directory);
    (webUI ++ ["index.html"], readable "<html></html>");
    (webUI ++ ["x.js"], readable "let x;");
    (webUI ++ ["assets"], Directory);
    (webUI ++ ["locked.css"],
       Regular {| stored := list_byte_of_string "a{}"; opens := false; delivers := 0 |});
    (webUI ++ ["cut.json"],
       Regular {| stored := list_byte_of_string "{}"; opens := true; delivers := 1 |}) ].

Definition installedApi : FileApi Path :=
  api installed ["opt"; "plugin"; "Plugin.so"] ["tmp"].

Definition production : Build :=
  {| DEV_MODE := false;
     getResourceProviderRoot := "https://juce.backend/";
     paramIDs := {| gain := "gain"; mix := "mix"; bypass := "bypass" |} |}.

Definition development : Build :=
  {| DEV_MODE := true;
     getResourceProviderRoot := "https://juce.backend/";
     paramIDs := {| gain := "gain"; mix := "mix"; bypass := "bypass" |} |}.

Definition processor : Processor :=
  {| apvts := [ {| paramID := "gain" |}; {| paramID := "mix" |};
                {| paramID := "bypass" |} ] |}.

(** The editor the host gets on this disk, and the same editor after some
    callbacks; [unwrap] falls back to the blank editor, which does not
    happen here. *)
Definition succeeded (o : option (Editor Path)) : bool :=
  match o with
  | Some _ => true
  | None => false
  end.

Definition unwrap (o : option (Editor Path)) : Editor Path :=
  match o with
  | Some e => e
  | None => @Editor_blank Path installedApi
  end.

Definition editor : Editor Path :=
  unwrap (@createEditor Path installedApi production processor).

Definition devEditor : Editor Path :=
  unwrap (@createEditor Path installedApi development processor).

Definition after (cs : list Callback) (e : Editor Path) : Editor Path :=
  unwrap (run cs e).

End PosixDisk.

(** ** Orderings on the constructor's log *)

(** [a] is logged, and some time later [b]. *)
Definition happensBefore (a b : Action) (log : list Action) : Prop :=
  exists l1 l2 l3, log = l1 ++ a :: l2 ++ b :: l3.

(** An action that creates a relay, registers one, or constructs the
    browser component. *)
Definition touchesRelaySet (a : Action) : bool :=
  match a with
  | RelayCreated _ | OptionsFrom _ | WebBrowserComponentConstructed _ => true
  | _ => false
  end.

(** The three relays of lines 50-54. *)
Definition theRelays : list Relay :=
  [ {| relayName := "gain"; relayKind := WebSliderRelay |};
    {| relayName := "mix"; relayKind := WebSliderRelay |};
    {| relayName := "bypass"; relayKind := WebToggleButtonRelay |} ].

(** The log of [setupWebView]. *)
Definition setupWebViewLog (build : Build) : list Action :=
  map RelayCreated theRelays
  ++ [ResourcesDirAssigned]
  ++ map OptionsFrom theRelays
  ++ [ WebBrowserComponentConstructed theRelays; AddedAndMadeVisible;
       WentToURL (if DEV_MODE build then DEV_SERVER_URL
                  else getResourceProviderRoot build) ].

(** The number of events delivered to the page so far. *)
Definition delivered {File : Type} (e : Editor File) : nat :=
  match webView e with
  | Some w => List.length (emittedEvents w)
  | None => 0
  end.

(** What the constructor establishes and every callback keeps: the browser
    component exists, was built with the provider and the three relays, and
    was sent to the start page of the build mode. *)
Definition constructed {File : Type} `{FileApi File} (build : Build)
    (e : Editor File) : Prop :=
  exists w,
    webView e = Some w
    /\ resourceProviderOption (browserOptions w) = Some resourceProvider
    /\ relayOptions (browserOptions w) = theRelays
    /\ ownedRelays e = map Some theRelays
    /\ currentURL w =
       Some (if DEV_MODE build then DEV_SERVER_URL
             else getResourceProviderRoot build)
    /\ resourcesDir e =
       getChildFile
         (getChildFile (getParentDirectory currentExecutableFile) "Resources")
         "WebUI".

(** The guard of the event channel: a browser component exists and is
    showing.  [sendVisualizerData] tests the first itself (line 182). *)
Definition visibilityGuard {File : Type} (e : Editor File) : bool :=
  match webView e with
  | Some w => browserVisible w
  | None => false
  end.

(** The event of line 196. *)
Definition visualizerData : string * var :=
  ("visualizerData", var_object {| properties := [] |}).



(** ** Further vocabulary for the editor's life *)

(** The three attachment members, in declaration order. *)
Definition attachments {File : Type} (e : Editor File)
  : list (option Attachment) :=
  [gainAttachment e; mixAttachment e; bypassAttachment e].

(** The ids of [ParameterIDs.h] that [setupRelaysAndAttachments] looks up,
    in the order of lines 154-161. *)
Definition lookedUp (build : Build) : list string :=
  [gain (paramIDs build); mix (paramIDs build); bypass (paramIDs build)].

(** The log of a whole construction: [setupWebView], then one attachment
    per id and relay, then the size, the resize policy and the timer. *)
Definition constructorLog (build : Build) : list Action :=
  setupWebViewLog build
  ++ map (fun binding => AttachmentCreated (fst binding) (snd binding))
         (combine (lookedUp build) theRelays)
  ++ [SizeSet 800 500; ResizableSet false false; TimerStarted 30].

(** The directory of lines 62-65: Resources/WebUI beside the executable. *)
Definition assetRoot {File : Type} `{FileApi File} : File :=
  getChildFile
    (getChildFile (getParentDirectory currentExecutableFile) "Resources")
    "WebUI".

(** The events delivered to the page so far. *)
Definition events {File : Type} (e : Editor File) : list (string * var) :=
  match webView e with
  | Some w => emittedEvents w
  | None => []
  end.

(** The timer ticks of a run of callbacks that find the browser showing,
    [showing] being its state at the start. *)
Fixpoint visibleTicks (cs : list Callback) (showing : bool) : nat :=
  match cs with
  | [] => 0
  | TimerTick :: rest => (if showing then 1 else 0) + visibleTicks rest showing
  | BrowserShown visible :: rest => visibleTicks rest visible
  | _ :: rest => visibleTicks rest showing
  end.

(** What a callback leaves alone: every member but the browser component,
    and of the browser component its options and the page it was sent to. *)
Definition untouched {File : Type} (e e' : Editor File) : Prop :=
  ownedRelays e' = ownedRelays e
  /\ attachments e' = attachments e
  /\ resourcesDir e' = resourcesDir e
  /\ editorSize e' = editorSize e
  /\ timerHz e' = timerHz e
  /\ history e' = history e
  /\ option_map browserOptions (webView e') = option_map browserOptions (webView e)
  /\ option_map currentURL (webView e') = option_map currentURL (webView e).

(** * Properties *)

(** ** Strings *)

Lemma matchBackwards_true (tail other : list ascii) :
  matchBackwards tail other = true -> exists front, tail = other ++ front.
Proof.
  revert tail; induction other as [|c other IH]; intros tail Hm.
  - now exists tail.
  - destruct tail as [|d tail]; [discriminate|].
    simpl in Hm. destruct (Ascii.eqb_spec d c) as [->|]; [|discriminate].
    destruct (IH _ Hm) as [front ->]. now exists front.
Qed.

Lemma endsWith_true (s other : string) :
  endsWith s other = true ->
  exists front,
    rev (list_ascii_of_string s) = rev (list_ascii_of_string other) ++ front.
Proof. apply matchBackwards_true. Qed.


Lemma prefix_append_same (a b : string) :
  String.prefix a (a ++ b)%string = true.
Proof.
  induction a as [|x a IH]; simpl.
  - now destruct b.
  - destruct (ascii_dec x x); [assumption|contradiction].
Qed.

Lemma substring_length_append (a b : string) :
  substring (a ++ b)%string (String.length a) = b.
Proof. induction a as [|x a IH]; simpl; [now destruct b|assumption]. Qed.

(** ** C2: normalisation of the requested path *)

(** C2.  The provider drops exactly one leading ["/"] when there is one and
    takes ["index.html"] when nothing is left: a request ["/" ++ rest]
    resolves as [rest] (so ["//x"] keeps its second slash), any other
    request as itself, and the empty path as the root document.  The
    requests [""] and ["/"] get the same answer, that of the root document,
    on every file system. *)
Theorem C2_requestedPath_strips_one_slash :
  (forall url,
      requestedPath url =
      let stripped :=
        match url with
        | String "/" rest => rest
        | _ => url
        end in
      if isEmpty stripped then "index.html" else stripped)
  /\ (forall rest, requestedPath ("//" ++ rest)%string = ("/" ++ rest)%string)
  /\ requestedPath "" = "index.html"
  /\ requestedPath "/" = "index.html"
  /\ (forall (File : Type) (api : FileApi File) (dir : File),
        resourceProvider dir "" = resourceProvider dir "index.html"
        /\ resourceProvider dir "/" = resourceProvider dir "index.html").
Proof.
  repeat split; try reflexivity.
  intros url. unfold requestedPath, startsWith.
  destruct url as [|c url]; [reflexivity|].
  cbn [String.prefix].
  destruct (ascii_dec "/" c) as [<-|Hne].
  - destruct url; reflexivity.
  - cbn [isEmpty].
    destruct c as [[] [] [] [] [] [] [] []]; try reflexivity.
    now contradiction Hne.
Qed.

(** ** C3: MIME classification *)

Ltac suffix_case Hends :=
  apply endsWith_true in Hends; destruct Hends as [front Hends];
  unfold mimeTypeFor, endsWith; rewrite Hends; reflexivity.

Lemma mimeTypeFor_table (path ext mime : string) :
  In (ext, mime) mimeTable ->
  endsWith path ("." ++ ext)%string = true ->
  mimeTypeFor path = mime.
Proof.
  unfold mimeTable; intros Hin Hends.
  repeat (destruct Hin as [Heq|Hin];
          [injection Heq as <- <-; suffix_case Hends|]).
  destruct Hin.
Qed.

Lemma mimeTypeFor_unmatched (path : string) :
  (forall ext mime, In (ext, mime) mimeTable ->
                    endsWith path ("." ++ ext)%string = false) ->
  mimeTypeFor path = "application/octet-stream".
Proof.
  intros Hnone. unfold mimeTypeFor.
  assert (Hat : forall k ext mime,
             nth_error mimeTable k = Some (ext, mime) ->
             endsWith path ("." ++ ext)%string = false)
    by (intros k ext mime Hk; eapply Hnone, nth_error_In, Hk).
  rewrite (Hat 0 "html" _ eq_refl : endsWith path ".html" = false).
  rewrite (Hat 1 "css" _ eq_refl : endsWith path ".css" = false).
  rewrite (Hat 2 "js" _ eq_refl : endsWith path ".js" = false).
  rewrite (Hat 3 "json" _ eq_refl : endsWith path ".json" = false).
  rewrite (Hat 4 "png" _ eq_refl : endsWith path ".png" = false).
  rewrite (Hat 5 "jpg" _ eq_refl : endsWith path ".jpg" = false).
  rewrite (Hat 6 "jpeg" _ eq_refl : endsWith path ".jpeg" = false).
  rewrite (Hat 7 "svg" _ eq_refl : endsWith path ".svg" = false).
  rewrite (Hat 8 "woff" _ eq_refl : endsWith path ".woff" = false).
  rewrite (Hat 9 "woff2" _ eq_refl : endsWith path ".woff2" = false).
  reflexivity.
Qed.

Lemma resourceProvider_some {File : Type} `{FileApi File}
    (dir : File) (url : string) (r : Resource) :
  resourceProvider dir url = Some r ->
  existsAsFile (getChildFile dir (requestedPath url)) = true
  /\ mimeType r = mimeTypeFor (requestedPath url)
  /\ data r = snd (loadFileAsData (getChildFile dir (requestedPath url)) []).
Proof.
  unfold resourceProvider.
  destruct (existsAsFile (getChildFile dir (requestedPath url))); simpl.
  - intros [= <-]. now repeat split.
  - discriminate.
Qed.

(** C3.  The MIME type of every served resource is that of its normalised
    path, which is classified by its ending against the fixed table: a path
    ending in ["." ++ ext] for a table entry [(ext, mime)] gets [mime], and
    a path with none of these endings gets ["application/octet-stream"]. *)
Theorem C3_mime_type_by_extension_suffix (path : string) :
  (forall ext mime,
      In (ext, mime) mimeTable ->
      endsWith path ("." ++ ext)%string = true ->
      mimeTypeFor path = mime)
  /\ ((forall ext mime,
          In (ext, mime) mimeTable ->
          endsWith path ("." ++ ext)%string = false) ->
      mimeTypeFor path = "application/octet-stream")
  /\ (forall (File : Type) (api : FileApi File) (dir : File) (url : string)
             (r : Resource),
         requestedPath url = path ->
         resourceProvider dir url = Some r ->
         mimeType r = mimeTypeFor path).
Proof.
  split; [|split].
  - intros ext mime. apply mimeTypeFor_table.
  - apply mimeTypeFor_unmatched.
  - intros File api dir url r <- Hr. now apply resourceProvider_some in Hr.
Qed.

(** ** The POSIX disk keeps the promises of the file interface *)

Lemma posix_laws (d : PosixDisk.Disk) (executable temp : PosixDisk.Path) :
  @FileApiLaws PosixDisk.Path (PosixDisk.api d executable temp)
               (PosixDisk.contents d).
Proof.
  split; cbn [existsAsFile loadFileAsData PosixDisk.api].
  - intros f. unfold PosixDisk.existsAsRegularFile, PosixDisk.contents.
    destruct (PosixDisk.lookup d f) as [[|rf]|]; split; congruence.
  - intros f block block'. unfold PosixDisk.load, PosixDisk.contents.
    destruct (PosixDisk.lookup d f) as [[|rf]|]; try discriminate.
    destruct (PosixDisk.opens rf); [|discriminate].
    intros [= Hlen <-]. apply Nat.eqb_eq in Hlen.
    exists (PosixDisk.stored rf). split; [reflexivity|].
    rewrite firstn_all2; [reflexivity|].
    rewrite length_firstn in Hlen. lia.
  - intros f block block'.
    unfold PosixDisk.existsAsRegularFile, PosixDisk.load, PosixDisk.contents.
    destruct (PosixDisk.lookup d f) as [[|rf]|]; try discriminate.
    intros _. destruct (PosixDisk.opens rf).
    + intros [= _ <-].
      exists (firstn (PosixDisk.delivers rf) (PosixDisk.stored rf)),
        (skipn (PosixDisk.delivers rf) (PosixDisk.stored rf)).
      now rewrite firstn_skipn.
    + intros [= <-].
      exists [], (PosixDisk.stored rf). now rewrite app_nil_r.
Qed.

Lemma unwrap_some (o : option (Editor PosixDisk.Path)) :
  PosixDisk.succeeded o = true -> o = Some (PosixDisk.unwrap o).
Proof. destruct o; [reflexivity|discriminate]. Qed.

(** ** The resource provider *)

Section ProviderFacts.

Context {File : Type} `{FileApi File}.

Lemma resourceProvider_none (dir : File) (url : string) :
  resourceProvider dir url = None <->
  existsAsFile (getChildFile dir (requestedPath url)) = false.
Proof.
  unfold resourceProvider.
  destruct (existsAsFile (getChildFile dir (requestedPath url))); simpl;
    split; congruence.
Qed.

Lemma resourceProvider_exists (dir : File) (url : string) :
  existsAsFile (getChildFile dir (requestedPath url)) = true ->
  resourceProvider dir url =
  Some {| data := snd (loadFileAsData (getChildFile dir (requestedPath url)) []);
          mimeType := mimeTypeFor (requestedPath url) |}.
Proof. unfold resourceProvider. now intros ->. Qed.

(** C1, as the code has it.  The provider answers NotFound exactly when no
    regular file exists at the location the normalised path resolves to
    from the asset root.  Nothing compares that location with the root, so
    a path that leaves the root is NotFound only when no regular file
    exists where it leads. *)
Theorem C1_not_found_iff_no_regular_file (dir : File) (url : string) :
  resourceProvider dir url = None <->
  existsAsFile (getChildFile dir (requestedPath url)) = false.
Proof. apply resourceProvider_none. Qed.

Context (fileContents : File -> option (list byte)).
Context {laws : FileApiLaws File fileContents}.

(** C4, as the code has it.  The payload of a returned resource is what one
    load of the resolved file into an empty block left there; when that
    load reports success it is the complete contents of the file, byte for
    byte. *)
Theorem C4_payload_is_whole_file_when_read_succeeds
    (dir : File) (url : string) (r : Resource) :
  resourceProvider dir url = Some r ->
  data r = snd (loadFileAsData (getChildFile dir (requestedPath url)) [])
  /\ (fst (loadFileAsData (getChildFile dir (requestedPath url)) []) = true ->
      fileContents (getChildFile dir (requestedPath url)) = Some (data r)).
Proof.
  intros Hr. apply resourceProvider_some in Hr as (_ & _ & Hdata).
  split; [assumption|]. intros Hok.
  destruct (loadFileAsData (getChildFile dir (requestedPath url)) [])
    as [ok block] eqn:Hload.
  simpl in *. subst ok.
  destruct (loadFileAsData_success _ _ _ Hload) as (bytes & Hbytes & ->).
  now rewrite Hdata.
Qed.

(** C10.  Once the resolved file exists as a regular file the provider
    returns a resource whatever the load reports: its MIME type is the one
    classified from the path and its payload is what the load left in the
    block.  When the load reports failure that payload is a first part of
    the file's bytes, possibly empty, and the caller is told nothing. *)
Theorem C10_resource_even_when_read_fails (dir : File) (url : string) :
  existsAsFile (getChildFile dir (requestedPath url)) = true ->
  exists r,
    resourceProvider dir url = Some r
    /\ mimeType r = mimeTypeFor (requestedPath url)
    /\ data r = snd (loadFileAsData (getChildFile dir (requestedPath url)) [])
    /\ (fst (loadFileAsData (getChildFile dir (requestedPath url)) []) = false ->
        exists rest,
          fileContents (getChildFile dir (requestedPath url))
          = Some (data r ++ rest)).
Proof.
  intros Hex. eexists. split; [now apply resourceProvider_exists|].
  cbn [data mimeType]. repeat split.
  destruct (loadFileAsData (getChildFile dir (requestedPath url)) [])
    as [ok block] eqn:Hload.
  simpl. intros ->.
  destruct (loadFileAsData_failure _ _ _ Hex Hload) as (got & rest & -> & Hc).
  now exists rest.
Qed.

End ProviderFacts.

(** C3, on an installed plugin: ["x.js"] is JavaScript, ["notes.txt"] has no
    ending of the table, and the root document is served as HTML. *)
Lemma C3_mime_type_witness :
  mimeTypeFor "x.js" = "application/javascript"
  /\ mimeTypeFor "notes.txt" = "application/octet-stream"
  /\ mimeType {| data := list_byte_of_string "<html></html>";
                 mimeType := "text/html" |}
     = mimeTypeFor "index.html".
Proof.
  split; [|split].
  - apply (proj1 (C3_mime_type_by_extension_suffix "x.js") "js").
    + vm_compute. tauto.
    + reflexivity.
  - apply (proj1 (proj2 (C3_mime_type_by_extension_suffix "notes.txt"))).
    intros ext mime Hin. vm_compute in Hin.
    repeat (destruct Hin as [[= <- <-]|Hin]; [reflexivity|]).
    destruct Hin.
  - apply (proj2 (proj2 (C3_mime_type_by_extension_suffix "index.html"))
             PosixDisk.Path PosixDisk.installedApi PosixDisk.webUI "/").
    + reflexivity.
    + reflexivity.
Defined.

(** C1 fails as stated: on the installed plugin the request ["../secret"]
    resolves to a file next to the asset root, not under it, and that file
    is served. *)
Lemma C1_traversal_is_served :
  @createEditor PosixDisk.Path PosixDisk.installedApi
    PosixDisk.production PosixDisk.processor = Some PosixDisk.editor
  /\ resourcesDir PosixDisk.editor = PosixDisk.webUI
  /\ PosixDisk.isAChildOf
       (PosixDisk.childFile (resourcesDir PosixDisk.editor)
          (requestedPath "../secret"))
       (resourcesDir PosixDisk.editor) = false
  /\ @resourceProvider PosixDisk.Path PosixDisk.installedApi
       (resourcesDir PosixDisk.editor) "../secret"
     = Some {| data := list_byte_of_string "key";
               mimeType := "application/octet-stream" |}.
Proof.
  split; [apply unwrap_some|]; repeat split; vm_compute; reflexivity.
Qed.

(** C4 fails as stated: the style sheet that cannot be opened exists, so a
    resource is returned, but its payload is empty and not the three bytes
    of the file. *)
Lemma C4_unreadable_file_served_empty :
  exists r bytes,
    @resourceProvider PosixDisk.Path PosixDisk.installedApi
      PosixDisk.webUI "/locked.css" = Some r
    /\ PosixDisk.contents PosixDisk.installed
         (PosixDisk.childFile PosixDisk.webUI (requestedPath "/locked.css"))
       = Some bytes
    /\ data r <> bytes.
Proof.
  eexists; eexists. split; [reflexivity|]. split; [reflexivity|].
  discriminate.
Qed.

(** C4, on the installed plugin: the script is read whole. *)
Lemma C4_payload_witness :
  PosixDisk.contents PosixDisk.installed
    (PosixDisk.childFile PosixDisk.webUI (requestedPath "/x.js"))
  = Some (list_byte_of_string "let x;").
Proof.
  refine (proj2 (@C4_payload_is_whole_file_when_read_succeeds
                   PosixDisk.Path PosixDisk.installedApi
                   (PosixDisk.contents PosixDisk.installed)
                   (posix_laws _ _ _)
                   PosixDisk.webUI "/x.js"
                   {| data := list_byte_of_string "let x;";
                      mimeType := "application/javascript" |}
                   eq_refl) eq_refl).
Defined.

(** C10, on the installed plugin: the JSON file whose read stops after one
    byte is served with that one byte and its JSON type. *)
Lemma C10_failed_read_witness :
  exists r,
    @resourceProvider PosixDisk.Path PosixDisk.installedApi
      PosixDisk.webUI "/cut.json" = Some r
    /\ mimeType r = "application/json"
    /\ data r = list_byte_of_string "{"
    /\ (false = false ->
        exists rest,
          PosixDisk.contents PosixDisk.installed
            (PosixDisk.childFile PosixDisk.webUI (requestedPath "/cut.json"))
          = Some (data r ++ rest)).
Proof.
  exact (@C10_resource_even_when_read_fails
           PosixDisk.Path PosixDisk.installedApi
           (PosixDisk.contents PosixDisk.installed)
           (posix_laws _ _ _)
           PosixDisk.webUI "/cut.json" eq_refl).
Defined.

(** ** The editor *)

Section EditorFacts.

Context {File : Type} `{FileApi File}.
Variable build : Build.

Lemma setupWebView_runs :
  exists e,
    setupWebView build Editor_blank = Some (tt, e)
    /\ constructed build e
    /\ history e = setupWebViewLog build.
Proof.
  unfold setupWebView, setupWebViewLog.
  destruct (DEV_MODE build) eqn:Hmode; cbn; eexists;
    (split; [reflexivity|]); (split; [|reflexivity]);
    unfold constructed; cbn; rewrite Hmode; eexists; repeat split.
Qed.

Lemma createEditor_constructed (p : Processor) (e : Editor File) :
  createEditor build p = Some e ->
  constructed build e
  /\ exists later,
      history e = setupWebViewLog build ++ later
      /\ existsb touchesRelaySet later = false.
Proof.
  unfold createEditor, Editor_new, setupWebView, setupRelaysAndAttachments,
    makeAttachment, setupWebViewLog, constructed.
  destruct (DEV_MODE build) eqn:Hmode; cbn;
    destruct (getParameter p (gain (paramIDs build))); cbn; try discriminate;
    destruct (getParameter p (mix (paramIDs build))); cbn; try discriminate;
    destruct (getParameter p (bypass (paramIDs build))); cbn; try discriminate;
    intros [= <-]; cbn; rewrite ?Hmode;
    (split; [eexists; repeat split|]);
    eexists; split; reflexivity.
Qed.

Lemma set_webView_same (e : Editor File) (w : WebBrowserComponent File) :
  webView e = Some w -> set_webView (Some w) e = e.
Proof. destruct e; cbn; now intros <-. Qed.

Lemma provideResource_constructed (url : string) (e : Editor File) :
  constructed build e ->
  provideResource url e = Some (resourceProvider (resourcesDir e) url, e).
Proof.
  intros (w & Hw & Hp & _).
  unfold provideResource, bind, gets, ret. now rewrite Hw, Hp.
Qed.

Lemma handle_constructed (c : Callback) (e : Editor File) :
  constructed build e ->
  exists e',
    handle c e = Some (tt, e')
    /\ constructed build e'
    /\ history e' = history e.
Proof.
  intros Hc. destruct c; cbn [handle].
  - destruct Hc as (w & Hw & Hp & Hr & Ho & Hu & Hd).
    unfold timerCallback, sendVisualizerData, bind, gets, modify.
    rewrite Hw. eexists. split; [reflexivity|]. split; [|reflexivity].
    eexists. split; [reflexivity|].
    unfold emitEventIfBrowserIsVisible.
    destruct (browserVisible w); cbn; auto.
  - exists e. now repeat split.
  - destruct Hc as (w & Hw & Hp & Hr & Ho & Hu & Hd).
    unfold resized, bind, gets, modify.
    rewrite Hw. eexists. split; [reflexivity|]. split; [|reflexivity].
    eexists. split; [reflexivity|]. cbn; auto.
  - exists e. unfold bind. rewrite provideResource_constructed by assumption.
    now repeat split.
  - destruct Hc as (w & Hw & Hp & Hr & Ho & Hu & Hd).
    unfold bind, gets, modify.
    rewrite Hw. eexists. split; [reflexivity|]. split; [|reflexivity].
    eexists. split; [reflexivity|]. cbn; auto.
Qed.

Lemma run_constructed (cs : list Callback) (e : Editor File) :
  constructed build e ->
  exists e',
    run cs e = Some e'
    /\ constructed build e'
    /\ history e' = history e.
Proof.
  revert e; induction cs as [|c cs IH]; intros e Hc; cbn [run].
  - now exists e.
  - destruct (handle_constructed c e Hc) as (e1 & -> & Hc1 & Hh1).
    destruct (IH e1 Hc1) as (e2 & Hrun & Hc2 & Hh2).
    exists e2. repeat split; [assumption|assumption|congruence].
Qed.

Lemma fetch_under_root (e : Editor File) (path : string) :
  constructed build e ->
  fetch build e (getResourceProviderRoot build ++ path)%string =
  match resourceProvider (resourcesDir e) path with
  | Some r => Served r
  | None => DefaultHandling
  end.
Proof.
  intros Hc. unfold fetch, startsWith.
  rewrite prefix_append_same, substring_length_append.
  rewrite provideResource_constructed by assumption.
  now destruct (resourceProvider (resourcesDir e) path).
Qed.


(** C5, as the code has it.  In an editor made by the constructor, at any
    later time, a request whose normalised path names no regular file at
    the place it resolves to from the asset root, inside the root or not,
    is answered NotFound: the provider returns
    [std::nullopt], the browser falls through to its default handling, the
    call returns normally and the editor is left as it was. *)
Theorem C5_missing_file_is_not_found
    (p : Processor) (cs : list Callback) (e0 e : Editor File) (url : string) :
  createEditor build p = Some e0 ->
  run cs e0 = Some e ->
  existsAsFile (getChildFile (resourcesDir e) (requestedPath url)) = false ->
  resourceProvider (resourcesDir e) url = None
  /\ provideResource url e = Some (None, e)
  /\ handle (ResourceRequested url) e = Some (tt, e)
  /\ fetch build e (getResourceProviderRoot build ++ url)%string
     = DefaultHandling.
Proof.
  intros Hnew Hrun Hmissing.
  apply createEditor_constructed in Hnew as [Hc0 _].
  destruct (run_constructed cs e0 Hc0) as (e' & Hrun' & Hc & _).
  assert (e' = e) as -> by congruence.
  apply resourceProvider_none in Hmissing.
  repeat split.
  - assumption.
  - rewrite provideResource_constructed by assumption. now rewrite Hmissing.
  - cbn [handle]. unfold bind.
    now rewrite provideResource_constructed by assumption.
  - rewrite fetch_under_root by assumption. now rewrite Hmissing.
Qed.



(** C7.  [setupWebView] always runs through, and in its log each of the
    relays gain, mix and bypass is created, then registered with
    [withOptionsFrom], and only then is the browser component constructed,
    with exactly these three.  Nothing the constructor does afterwards and
    no callback creates or registers a relay: at any later time the
    component's relay set and the editor's relays are the same three. *)
Theorem C7_relays_before_browser_component
    (p : Processor) (e0 : Editor File) :
  createEditor build p = Some e0 ->
  (exists e1, setupWebView build Editor_blank = Some (tt, e1)
              /\ history e1 = setupWebViewLog build)
  /\ (exists earlier later,
        history e0
        = earlier ++ WebBrowserComponentConstructed theRelays :: later
        /\ (forall r, In r theRelays ->
                      happensBefore (RelayCreated r) (OptionsFrom r) earlier)
        /\ existsb touchesRelaySet later = false)
  /\ (forall cs, exists e,
         run cs e0 = Some e
         /\ registeredRelays e = theRelays
         /\ ownedRelays e = map Some theRelays
         /\ history e = history e0).
Proof.
  intros Hnew.
  apply createEditor_constructed in Hnew as (Hc0 & later & Hlog & Hlater).
  split; [|split].
  - destruct setupWebView_runs as (e1 & Hrun & _ & Hh). now exists e1.
  - exists (map RelayCreated theRelays ++ [ResourcesDirAssigned]
            ++ map OptionsFrom theRelays).
    eexists. split; [|split].
    + rewrite Hlog. unfold setupWebViewLog.
      rewrite <- !app_assoc. cbn. reflexivity.
    + assert (Hat : forall k r,
                 nth_error theRelays k = Some r ->
                 happensBefore (RelayCreated r) (OptionsFrom r)
                   (map RelayCreated theRelays ++ [ResourcesDirAssigned]
                    ++ map OptionsFrom theRelays)).
      { intros k r Hk.
        exists (firstn k (map RelayCreated theRelays)),
          (skipn (S k) (map RelayCreated theRelays) ++ [ResourcesDirAssigned]
           ++ firstn k (map OptionsFrom theRelays)),
          (skipn (S k) (map OptionsFrom theRelays)).
        destruct k as [|[|[|k]]]; cbn in Hk; try (now destruct k);
          injection Hk as <-; reflexivity. }
      intros r Hin. apply In_nth_error in Hin as [k Hk]. now apply (Hat k).
    + cbn. assumption.
  - intros cs. destruct (run_constructed cs e0 Hc0) as (e & Hrun & Hc & Hh).
    exists e. destruct Hc as (w & Hw & _ & Hr & Ho & _).
    unfold registeredRelays. rewrite Hw. now repeat split.
Qed.

(** C9.  Every call of [sendVisualizerData], and so every timer tick,
    returns normally.  With the visibility guard false nothing is delivered
    and the editor is exactly as before, nothing being queued; with the
    guard true exactly one event, named ["visualizerData"], is added to
    those delivered. *)
Theorem C9_emit_only_when_visible (e : Editor File) :
  exists e',
    sendVisualizerData e = Some (tt, e')
    /\ timerCallback e = Some (tt, e')
    /\ handle TimerTick e = Some (tt, e')
    /\ delivered e' = delivered e + (if visibilityGuard e then 1 else 0)
    /\ (visibilityGuard e = false -> e' = e)
    /\ (visibilityGuard e = true ->
        exists w w',
          webView e = Some w /\ webView e' = Some w'
          /\ emittedEvents w' = emittedEvents w ++ [visualizerData]).
Proof.
  unfold handle, timerCallback, sendVisualizerData, delivered, visibilityGuard,
    bind, gets, modify, ret, emitEventIfBrowserIsVisible.
  destruct (webView e) as [w|] eqn:Hw.
  - destruct (browserVisible w) eqn:Hv.
    + eexists. repeat split; cbn.
      * rewrite length_app. reflexivity.
      * discriminate.
      * intros _. eexists; eexists. repeat split.
    + exists e. rewrite set_webView_same by assumption.
      rewrite Hw. repeat split; [lia|discriminate].
  - exists e. rewrite Hw. repeat split; discriminate.
Qed.

End EditorFacts.

(** ** The attachment protocol *)

Section AttachmentFacts.

Import AttachmentProtocol.

Variable Value : Type.

Lemma begins_app (out out' : list (ParameterSignal Value)) :
  begins (out ++ out') = begins out + begins out'.
Proof. unfold begins. now rewrite filter_app, length_app. Qed.

Lemma ends_app (out out' : list (ParameterSignal Value)) :
  ends (out ++ out') = ends out + ends out'.
Proof. unfold ends. now rewrite filter_app, length_app. Qed.

Lemma deliver_cons (a : Attachment) (s : UiSignal Value)
    (signals : list (UiSignal Value)) :
  deliver a (s :: signals)
  = (fst (deliver (fst (step a s)) signals),
     snd (step a s) ++ snd (deliver (fst (step a s)) signals)).
Proof.
  cbn [deliver]. destruct (step a s) as [a1 out1]. cbn [fst snd].
  now destruct (deliver a1 signals).
Qed.

Lemma deliver_app (a : Attachment) (first second : list (UiSignal Value)) :
  deliver a (first ++ second)
  = (fst (deliver (fst (deliver a first)) second),
     snd (deliver a first) ++ snd (deliver (fst (deliver a first)) second)).
Proof.
  revert a; induction first as [|s first IH]; intros a.
  - cbn. now destruct (deliver a second).
  - rewrite <- app_comm_cons, !deliver_cons, IH. cbn [fst snd].
    now rewrite app_assoc.
Qed.

Lemma step_balance (a : Attachment) (s : UiSignal Value) :
  begins (snd (step a s)) + gesturesOpen a
  = ends (snd (step a s)) + gesturesOpen (fst (step a s)).
Proof.
  unfold step, gesturesOpen.
  destruct s, (gestureState a) eqn:Hg; cbn; rewrite ?Hg; reflexivity.
Qed.

Lemma deliver_balance (signals : list (UiSignal Value)) (a : Attachment) :
  begins (snd (deliver a signals)) + gesturesOpen a
  = ends (snd (deliver a signals)) + gesturesOpen (fst (deliver a signals)).
Proof.
  revert a; induction signals as [|s signals IH]; intros a.
  - reflexivity.
  - rewrite deliver_cons. cbn [fst snd]. rewrite begins_app, ends_app.
    pose proof (step_balance a s). pose proof (IH (fst (step a s))). lia.
Qed.

Lemma deliver_during (middle : list (UiSignal Value)) (a : Attachment) :
  gestureState a = Dragging ->
  forallb duringInteraction middle = true ->
  fst (deliver a middle) = a
  /\ begins (snd (deliver a middle)) = 0
  /\ ends (snd (deliver a middle)) = 0.
Proof.
  intros Hdrag. induction middle as [|s middle IH]; intros Hmid.
  - now repeat split.
  - cbn [forallb] in Hmid. apply andb_true_iff in Hmid as [Hs Hmid].
    destruct (IH Hmid) as (Ha & Hb & He).
    rewrite deliver_cons. cbn [fst snd]. rewrite begins_app, ends_app.
    assert (Hstep : fst (step a s) = a /\ begins (snd (step a s)) = 0
                    /\ ends (snd (step a s)) = 0)
      by (unfold step; rewrite Hdrag; destruct s; try discriminate;
          now repeat split).
    destruct Hstep as (-> & -> & ->). now rewrite Ha, Hb, He.
Qed.

(** C8.  For an attachment that is Idle, an interaction from the UI
    (started, then any number of value changes, stray repeated starts
    included, then finished) sends its parameter exactly one begin-gesture
    and exactly one end-gesture and leaves the attachment Idle.  A start
    received while Dragging sends nothing and changes nothing.  Whatever
    the UI sends, the begun gestures exceed the ended ones by one while
    Dragging and by none while Idle: never more than one is open. *)
Theorem C8_one_gesture_per_interaction
    (a : Attachment) (middle : list (UiSignal Value)) :
  gestureState a = Idle ->
  forallb duringInteraction middle = true ->
  (let result :=
     deliver a (InteractionStarted :: middle ++ [InteractionFinished]) in
   begins (snd result) = 1
   /\ ends (snd result) = 1
   /\ gestureState (fst result) = Idle)
  /\ (forall d : Attachment,
        gestureState d = Dragging ->
        step d (@InteractionStarted Value) = (d, []))
  /\ (forall signals : list (UiSignal Value),
        begins (snd (deliver a signals))
        = ends (snd (deliver a signals))
          + gesturesOpen (fst (deliver a signals))
        /\ gesturesOpen (fst (deliver a signals)) <= 1).
Proof.
  intros Hidle Hmid. split; [|split].
  - cbn zeta. rewrite deliver_cons, deliver_app. cbn [fst snd].
    rewrite !begins_app, !ends_app.
    set (d := {| attachedParameter := attachedParameter a;
                 attachedRelay := attachedRelay a;
                 gestureState := Dragging |}).
    assert (Hstart : step a (@InteractionStarted Value) = (d, [BeginGesture]))
      by (unfold step; now rewrite Hidle).
    rewrite Hstart. cbn [fst snd].
    destruct (deliver_during middle d eq_refl Hmid) as (Hd & Hb & He).
    rewrite Hd, Hb, He. now repeat split.
  - intros d Hd. unfold step. now rewrite Hd.
  - intros signals. pose proof (deliver_balance signals a) as Hb.
    unfold gesturesOpen in *. rewrite Hidle in Hb.
    destruct (gestureState (fst (deliver a signals))); lia.
Qed.

End AttachmentFacts.

(** ** The theorems at work on the installed plugin *)

Section Installed.

Import AttachmentProtocol PosixDisk.

Lemma installed_production :
  @createEditor Path installedApi production processor = Some editor.
Proof. apply unwrap_some. vm_compute. reflexivity. Qed.

Lemma installed_development :
  @createEditor Path installedApi development processor = Some devEditor.
Proof. apply unwrap_some. vm_compute. reflexivity. Qed.

(** The resolver examples of section 8 of the spec. *)
Example resolve_root_document :
  @resourceProvider Path installedApi webUI ""
  = Some {| data := list_byte_of_string "<html></html>";
            mimeType := "text/html" |}
  /\ @resourceProvider Path installedApi webUI "/"
     = @resourceProvider Path installedApi webUI "".
Proof. split; vm_compute; reflexivity. Qed.

Example resolve_script :
  option_map mimeType (@resourceProvider Path installedApi webUI "x.js")
  = Some "application/javascript".
Proof. vm_compute. reflexivity. Qed.

Example resolve_missing_image :
  @resourceProvider Path installedApi webUI "missing.png" = None.
Proof. vm_compute. reflexivity. Qed.

Example resolve_directory :
  @resourceProvider Path installedApi webUI "/assets" = None.
Proof. vm_compute. reflexivity. Qed.

(** C5 fails as stated: ["../secret"] names no regular file under the
    asset root, the file it leads to lying beside the root, yet the request
    is answered with that file and not with NotFound. *)
Lemma C5_file_beside_root_is_served :
  (existsAsRegularFile installed
     (childFile (resourcesDir editor) (requestedPath "../secret"))
   && isAChildOf
        (childFile (resourcesDir editor) (requestedPath "../secret"))
        (resourcesDir editor)) = false
  /\ provideResource "../secret" editor
     = Some (Some {| data := list_byte_of_string "key";
                     mimeType := "application/octet-stream" |}, editor).
Proof.
  split; [vm_compute; reflexivity|].
  destruct (@createEditor_constructed Path installedApi production processor
              editor installed_production) as [Hc _].
  rewrite (provideResource_constructed production _ _ Hc).
  replace (resourceProvider (resourcesDir editor) "../secret")
    with (Some {| data := list_byte_of_string "key";
                  mimeType := "application/octet-stream" |})
    by (vm_compute; reflexivity).
  reflexivity.
Qed.


(** C5: the image that does not exist, asked for after a tick with the
    window hidden. *)
Lemma C5_missing_png_witness :
  run [BrowserShown false; TimerTick] editor
  = Some (after [BrowserShown false; TimerTick] editor)
  /\ @resourceProvider Path installedApi
       (resourcesDir (after [BrowserShown false; TimerTick] editor))
       "missing.png" = None
  /\ provideResource "missing.png" (after [BrowserShown false; TimerTick] editor)
     = Some (None, after [BrowserShown false; TimerTick] editor)
  /\ handle (ResourceRequested "missing.png")
       (after [BrowserShown false; TimerTick] editor)
     = Some (tt, after [BrowserShown false; TimerTick] editor)
  /\ @fetch Path production (after [BrowserShown false; TimerTick] editor)
       (getResourceProviderRoot production ++ "missing.png")%string
     = DefaultHandling.
Proof.
  assert (Hrun : run [BrowserShown false; TimerTick] editor
                 = Some (after [BrowserShown false; TimerTick] editor))
    by (apply unwrap_some; vm_compute; reflexivity).
  split; [exact Hrun|].
  apply (@C5_missing_file_is_not_found Path installedApi production processor
           [BrowserShown false; TimerTick] editor _ "missing.png"
           installed_production Hrun).
  vm_compute. reflexivity.
Defined.


(** C7: the constructor's log on the installed plugin. *)
Lemma C7_constructor_log_witness :
  (exists earlier later,
      history editor
      = earlier ++ WebBrowserComponentConstructed theRelays :: later
      /\ (forall r, In r theRelays ->
                    happensBefore (RelayCreated r) (OptionsFrom r) earlier)
      /\ existsb touchesRelaySet later = false)
  /\ (forall cs, exists e,
         run cs editor = Some e
         /\ registeredRelays e = theRelays
         /\ ownedRelays e = map Some theRelays
         /\ history e = history editor).
Proof.
  exact (proj2 (@C7_relays_before_browser_component Path installedApi
                  production processor editor installed_production)).
Defined.

(** C8: a drag of the gain slider with two changes and a stray start. *)
Lemma C8_gain_drag_witness :
  begins (snd (deliver
                 {| attachedParameter := {| paramID := "gain" |};
                    attachedRelay := {| relayName := "gain";
                                        relayKind := WebSliderRelay |};
                    gestureState := Idle |}
                 ([InteractionStarted; ValueChanged 3; InteractionStarted;
                   ValueChanged 8; InteractionFinished]))) = 1
  /\ ends (snd (deliver
                  {| attachedParameter := {| paramID := "gain" |};
                     attachedRelay := {| relayName := "gain";
                                         relayKind := WebSliderRelay |};
                     gestureState := Idle |}
                  ([InteractionStarted; ValueChanged 3; InteractionStarted;
                    ValueChanged 8; InteractionFinished]))) = 1.
Proof.
  destruct (proj1 (C8_one_gesture_per_interaction nat
                     {| attachedParameter := {| paramID := "gain" |};
                        attachedRelay := {| relayName := "gain";
                                            relayKind := WebSliderRelay |};
                        gestureState := Idle |}
                     [ValueChanged 3; InteractionStarted; ValueChanged 8]
                     eq_refl eq_refl)) as (Hb & He & _).
  split; [exact Hb|exact He].
Defined.

(** C9: a tick with the window showing delivers one event, a tick with the
    window hidden leaves the editor as it is. *)
Lemma C9_tick_witness :
  (exists e', sendVisualizerData editor = Some (tt, e')
              /\ delivered e' = delivered editor + 1)
  /\ sendVisualizerData (after [BrowserShown false] editor)
     = Some (tt, after [BrowserShown false] editor).
Proof.
  split.
  - destruct (@C9_emit_only_when_visible Path editor)
      as (e' & Hsend & _ & _ & Hcount & _).
    assert (Hshowing : visibilityGuard editor = true)
      by (vm_compute; reflexivity).
    rewrite Hshowing in Hcount.
    exists e'. split; [exact Hsend|exact Hcount].
  - destruct (@C9_emit_only_when_visible Path (after [BrowserShown false] editor))
      as (e' & Hsend & _ & _ & _ & Hsame & _).
    rewrite Hsend. rewrite Hsame; [reflexivity|]. vm_compute. reflexivity.
Defined.

End Installed.

(** * Further properties of the editor *)

(** ** Request paths *)

(** The path handed to [getChildFile] is never empty: an empty request, or
    a lone slash, has become the root document. *)
Theorem requestedPath_never_empty (url : string) :
  isEmpty (requestedPath url) = false.
Proof.
  unfold requestedPath.
  destruct (startsWith url "/"); [destruct (substring url 1) eqn:Hs|];
    try reflexivity.
  destruct url; reflexivity.
Qed.

Lemma requestedPath_slash (rest : string) :
  requestedPath ("/" ++ rest)%string
  = if isEmpty rest then "index.html" else rest.
Proof. now destruct rest. Qed.

Lemma requestedPath_plain (url : string) :
  startsWith url "/" = false ->
  requestedPath url = if isEmpty url then "index.html" else url.
Proof. unfold requestedPath. now intros ->. Qed.

(** The leading slash of a request is optional: a request that does not
    begin with a slash gets the same answer with one put in front, on every
    file system. *)
Theorem leading_slash_is_optional
    {File : Type} `{FileApi File} (dir : File) (url : string) :
  startsWith url "/" = false ->
  requestedPath ("/" ++ url)%string = requestedPath url
  /\ resourceProvider dir ("/" ++ url)%string = resourceProvider dir url.
Proof.
  intros Hplain.
  assert (Hsame : requestedPath ("/" ++ url)%string = requestedPath url)
    by now rewrite requestedPath_slash, requestedPath_plain.
  split; [assumption|]. unfold resourceProvider. now rewrite Hsame.
Qed.

Lemma leading_slash_witness :
  requestedPath "/assets/app.js" = requestedPath "assets/app.js"
  /\ @resourceProvider PosixDisk.Path PosixDisk.installedApi
       PosixDisk.webUI "/x.js"
     = @resourceProvider PosixDisk.Path PosixDisk.installedApi
         PosixDisk.webUI "x.js".
Proof.
  split.
  - exact (proj1 (@leading_slash_is_optional PosixDisk.Path
                    PosixDisk.installedApi PosixDisk.webUI "assets/app.js"
                    eq_refl)).
  - exact (proj2 (@leading_slash_is_optional PosixDisk.Path
                    PosixDisk.installedApi PosixDisk.webUI "x.js" eq_refl)).
Defined.

(** ** MIME types *)

Lemma list_ascii_of_string_app (a b : string) :
  list_ascii_of_string (a ++ b)%string
  = list_ascii_of_string a ++ list_ascii_of_string b.
Proof. induction a as [|c a IH]; cbn; [reflexivity|now rewrite IH]. Qed.

Lemma matchBackwards_past_separator (tail front other : list ascii) :
  forallb (fun c => negb (Ascii.eqb c "/")) other = true ->
  matchBackwards (tail ++ "/"%char :: front) other = matchBackwards tail other.
Proof.
  revert tail; induction other as [|c other IH]; intros tail Hother.
  - reflexivity.
  - cbn [forallb] in Hother. apply andb_true_iff in Hother as [Hc Hother].
    destruct tail as [|d tail]; cbn [app matchBackwards].
    + rewrite Ascii.eqb_sym. now destruct (Ascii.eqb c "/").
    + destruct (Ascii.eqb d c); [now apply IH|reflexivity].
Qed.

Lemma endsWith_last_component (directory name other : string) :
  forallb (fun c => negb (Ascii.eqb c "/")) (rev (list_ascii_of_string other))
  = true ->
  endsWith (directory ++ "/" ++ name)%string other = endsWith name other.
Proof.
  intros Hother. unfold endsWith.
  rewrite !list_ascii_of_string_app, !rev_app_distr. cbn [list_ascii_of_string rev].
  rewrite <- app_assoc. cbn [app].
  now apply matchBackwards_past_separator.
Qed.

(** The MIME type of a path is that of its last component: the directories
    in front of the final slash play no part in the classification. *)
Theorem mimeTypeFor_last_component (directory name : string) :
  mimeTypeFor (directory ++ "/" ++ name)%string = mimeTypeFor name.
Proof.
  unfold mimeTypeFor.
  now rewrite !endsWith_last_component by reflexivity.
Qed.

(** The classification is exact: a path gets a MIME type of the table only
    when it ends in an extension the table gives that type, and gets
    ["application/octet-stream"] only when it ends in none of the table's
    extensions. *)
Theorem mimeTypeFor_only_by_table (path : string) :
  (exists ext,
      In (ext, mimeTypeFor path) mimeTable
      /\ endsWith path ("." ++ ext)%string = true)
  \/ (mimeTypeFor path = "application/octet-stream"
      /\ forall ext mime,
          In (ext, mime) mimeTable ->
          endsWith path ("." ++ ext)%string = false).
Proof.
  unfold mimeTypeFor.
  destruct (endsWith path ".html") eqn:H1;
    [left; exists "html"; split; [cbn; tauto|assumption]|].
  destruct (endsWith path ".css") eqn:H2;
    [left; exists "css"; split; [cbn; tauto|assumption]|].
  destruct (endsWith path ".js") eqn:H3;
    [left; exists "js"; split; [cbn; tauto|assumption]|].
  destruct (endsWith path ".json") eqn:H4;
    [left; exists "json"; split; [cbn; tauto|assumption]|].
  destruct (endsWith path ".png") eqn:H5;
    [left; exists "png"; split; [cbn; tauto|assumption]|].
  destruct (endsWith path ".jpg") eqn:H6;
    [left; exists "jpg"; split; [cbn; tauto|assumption]|].
  destruct (endsWith path ".jpeg") eqn:H7;
    [left; exists "jpeg"; split; [cbn; tauto|assumption]|].
  destruct (endsWith path ".svg") eqn:H8;
    [left; exists "svg"; split; [cbn; tauto|assumption]|].
  destruct (endsWith path ".woff") eqn:H9;
    [left; exists "woff"; split; [cbn; tauto|assumption]|].
  destruct (endsWith path ".woff2") eqn:H10;
    [left; exists "woff2"; split; [cbn; tauto|assumption]|].
  right. split; [reflexivity|]. intros ext mime Hin.
  repeat (destruct Hin as [[= <- <-]|Hin]; [assumption|]).
  destruct Hin.
Qed.

(** ** Construction *)

Lemma getParameter_found (p : Processor) (id : string)
    (q : RangedAudioParameter) :
  getParameter p id = Some q -> In q (apvts p) /\ paramID q = id.
Proof.
  unfold getParameter. intros Hfind. apply find_some in Hfind as [Hin Heq].
  split; [assumption|now apply String.eqb_eq].
Qed.

Lemma getParameter_missing (p : Processor) (id : string) :
  getParameter p id = None ->
  forall q, In q (apvts p) -> paramID q <> id.
Proof.
  unfold getParameter. intros Hfind q Hin.
  apply (find_none _ _ Hfind) in Hin. now apply String.eqb_neq.
Qed.

Lemma getParameter_present (p : Processor) (id : string) :
  getParameter p id <> None <->
  exists q, In q (apvts p) /\ paramID q = id.
Proof.
  split.
  - destruct (getParameter p id) as [q|] eqn:Hq; [|congruence].
    intros _. exists q. now apply getParameter_found.
  - intros (q & Hin & Hid) Hnone.
    now apply (getParameter_missing p id Hnone q Hin).
Qed.

Section ConstructionFacts.

Context {File : Type} `{FileApi File}.
Variable build : Build.

(** What the constructor yields, by the outcome of its three lookups. *)
Lemma createEditor_cases (p : Processor) :
  match getParameter p (gain (paramIDs build)),
        getParameter p (mix (paramIDs build)),
        getParameter p (bypass (paramIDs build)) with
  | Some g, Some m, Some b =>
      exists e w,
        createEditor build p = Some e
        /\ attachments e
           = map (fun binding =>
                    Some {| attachedParameter := fst binding;
                            attachedRelay := snd binding;
                            gestureState := Idle |})
                 (combine [g; m; b] theRelays)
        /\ webView e = Some w
        /\ browserVisible w = true
        /\ emittedEvents w = []
        /\ editorSize e = (800, 500)
        /\ timerHz e = Some 30
        /\ resourcesDir e = assetRoot
        /\ history e
           = setupWebViewLog build
             ++ map (fun binding =>
                       AttachmentCreated (paramID (fst binding)) (snd binding))
                    (combine [g; m; b] theRelays)
             ++ [SizeSet 800 500; ResizableSet false false; TimerStarted 30]
  | _, _, _ => createEditor build p = None
  end.
Proof.
  unfold createEditor, Editor_new, setupWebView, setupRelaysAndAttachments,
    makeAttachment, setupWebViewLog, attachments, assetRoot.
  destruct (DEV_MODE build) eqn:Hmode; cbn;
    destruct (getParameter p (gain (paramIDs build))); cbn; try reflexivity;
    destruct (getParameter p (mix (paramIDs build))); cbn; try reflexivity;
    destruct (getParameter p (bypass (paramIDs build))); cbn; try reflexivity;
    eexists; eexists; (split; [reflexivity|]); cbn; repeat split.
Qed.

Lemma createEditor_bounds (p : Processor) (e : Editor File) :
  createEditor build p = Some e ->
  exists w, webView e = Some w /\ browserBounds w = (0, 0, 800, 500).
Proof.
  unfold createEditor, Editor_new, setupWebView, setupRelaysAndAttachments,
    makeAttachment, setSize.
  destruct (DEV_MODE build); cbn;
    destruct (getParameter p (gain (paramIDs build))); cbn; try discriminate;
    destruct (getParameter p (mix (paramIDs build))); cbn; try discriminate;
    destruct (getParameter p (bypass (paramIDs build))); cbn; try discriminate;
    intros [= <-]; cbn; eexists; split; reflexivity.
Qed.

(** The constructor comes through exactly when the processor's parameter
    tree has a parameter for each of the ids gain, mix and bypass of
    [ParameterIDs.h]; with one of them missing a null pointer is
    dereferenced and no editor results. *)
Theorem createEditor_succeeds_iff (p : Processor) :
  (exists e, createEditor build p = Some e) <->
  (forall id, In id (lookedUp build) ->
              exists q, In q (apvts p) /\ paramID q = id).
Proof.
  pose proof (createEditor_cases p) as Hcases.
  unfold lookedUp. split.
  - intros [e He] id Hid. apply getParameter_present.
    destruct (getParameter p (gain (paramIDs build))) as [g|] eqn:Hg;
      [|congruence].
    destruct (getParameter p (mix (paramIDs build))) as [m|] eqn:Hm;
      [|congruence].
    destruct (getParameter p (bypass (paramIDs build))) as [b|] eqn:Hb;
      [|congruence].
    destruct Hid as [<-|[<-|[<-|[]]]]; congruence.
  - intros Hall.
    assert (Hg := proj2 (getParameter_present p _) (Hall _ (or_introl eq_refl))).
    assert (Hm := proj2 (getParameter_present p _)
                    (Hall _ (or_intror (or_introl eq_refl)))).
    assert (Hb := proj2 (getParameter_present p _)
                    (Hall _ (or_intror (or_intror (or_introl eq_refl))))).
    destruct (getParameter p (gain (paramIDs build))); [|contradiction].
    destruct (getParameter p (mix (paramIDs build))); [|contradiction].
    destruct (getParameter p (bypass (paramIDs build))); [|contradiction].
    destruct Hcases as (e & _ & He & _). now exists e.
Qed.

(** A construction that comes through has logged, in this order: the steps
    of [setupWebView] up to the navigation to the start page, one
    attachment for each looked-up id with the relay of the same position,
    the size 800 by 500, the fixed-size policy and the start of the timer
    at 30 Hz. *)
Theorem createEditor_log (p : Processor) (e : Editor File) :
  createEditor build p = Some e ->
  history e = constructorLog build.
Proof.
  intros He. pose proof (createEditor_cases p) as Hcases.
  destruct (getParameter p (gain (paramIDs build))) as [g|] eqn:Hg;
    [|congruence].
  destruct (getParameter p (mix (paramIDs build))) as [m|] eqn:Hm;
    [|congruence].
  destruct (getParameter p (bypass (paramIDs build))) as [b|] eqn:Hb;
    [|congruence].
  destruct Hcases as (e' & w & He' & _ & _ & _ & _ & _ & _ & _ & Hlog).
  assert (e' = e) as -> by congruence.
  apply getParameter_found in Hg as [_ Hg], Hm as [_ Hm], Hb as [_ Hb].
  rewrite Hlog. unfold constructorLog, lookedUp, theRelays.
  cbn [combine map fst snd]. now rewrite Hg, Hm, Hb.
Qed.

(** ** Callbacks *)

Lemma untouched_refl (e : Editor File) : untouched e e.
Proof. now repeat split. Qed.

Lemma untouched_trans (e1 e2 e3 : Editor File) :
  untouched e1 e2 -> untouched e2 e3 -> untouched e1 e3.
Proof.
  unfold untouched. intros (? & ? & ? & ? & ? & ? & ? & ?)
                           (? & ? & ? & ? & ? & ? & ? & ?).
  repeat split; congruence.
Qed.

Lemma set_webView_untouched (e : Editor File) (w w' : WebBrowserComponent File) :
  webView e = Some w ->
  browserOptions w' = browserOptions w ->
  currentURL w' = currentURL w ->
  untouched e (set_webView (Some w') e).
Proof.
  intros Hw Ho Hu. unfold untouched. cbn. rewrite Hw. cbn.
  repeat split; congruence.
Qed.

Lemma handle_untouched (c : Callback) (e : Editor File) :
  exists e', handle c e = Some (tt, e') /\ untouched e e'.
Proof.
  destruct (webView e) as [w|] eqn:Hw; destruct c; cbn [handle];
    unfold timerCallback, sendVisualizerData, paint, resized, provideResource,
      bind, gets, modify, ret; rewrite ?Hw;
    try (exists e; split; [reflexivity|apply untouched_refl]).
  - eexists. split; [reflexivity|].
    apply (set_webView_untouched e w); [assumption| |];
      unfold emitEventIfBrowserIsVisible; now destruct (browserVisible w).
  - eexists. split; [reflexivity|]. now apply (set_webView_untouched e w).
  - exists e. split; [|apply untouched_refl].
    now destruct (resourceProviderOption (browserOptions w)).
  - eexists. split; [reflexivity|]. now apply (set_webView_untouched e w).
Qed.

(** Every callback returns normally in every state of the editor, a
    missing browser component included, and no run of callbacks changes
    anything but the browser component's visibility, delivered events and
    bounds: relays, attachments, resources directory, size, timer and log
    stay as they are, and so do the browser component's options and the
    page it was sent to. *)
Theorem callbacks_change_only_the_browser
    (cs : list Callback) (e : Editor File) :
  exists e', run cs e = Some e' /\ untouched e e'.
Proof.
  revert e; induction cs as [|c cs IH]; intros e; cbn [run].
  - exists e. split; [reflexivity|apply untouched_refl].
  - destruct (handle_untouched c e) as (e1 & -> & H1).
    destruct (IH e1) as (e2 & Hrun & H2).
    exists e2. split; [assumption|]. now apply (untouched_trans e e1 e2).
Qed.

Lemma run_app (cs cs' : list Callback) (e : Editor File) :
  run (cs ++ cs') e
  = match run cs e with
    | Some e' => run cs' e'
    | None => None
    end.
Proof.
  revert e; induction cs as [|c cs IH]; intros e; cbn [run app].
  - reflexivity.
  - destruct (handle c e) as [[[] e1]|]; [apply IH|reflexivity].
Qed.

(** In an editor made by the constructor each attachment member is set, at
    any later time; the three are bound, in order, to the relays the
    browser component was built with and to parameters of the processor's
    tree carrying the looked-up ids. *)
Theorem attachments_bind_relays_to_parameters
    (p : Processor) (e0 : Editor File) :
  createEditor build p = Some e0 ->
  forall cs, exists e g m b,
    run cs e0 = Some e
    /\ attachments e = [Some g; Some m; Some b]
    /\ map attachedRelay [g; m; b] = registeredRelays e
    /\ map (fun a => paramID (attachedParameter a)) [g; m; b] = lookedUp build
    /\ (forall a, In a [g; m; b] -> In (attachedParameter a) (apvts p)).
Proof.
  intros He cs. pose proof (createEditor_cases p) as Hcases.
  destruct (getParameter p (gain (paramIDs build))) as [g|] eqn:Hg;
    [|congruence].
  destruct (getParameter p (mix (paramIDs build))) as [m|] eqn:Hm;
    [|congruence].
  destruct (getParameter p (bypass (paramIDs build))) as [b|] eqn:Hb;
    [|congruence].
  destruct Hcases as (e' & w & He' & Hatt & _).
  assert (e' = e0) as -> by congruence.
  apply getParameter_found in Hg as [Hgin Hg], Hm as [Hmin Hm], Hb as [Hbin Hb].
  apply createEditor_constructed in He as [Hc0 _].
  destruct (run_constructed build cs e0 Hc0) as (e & Hrun & Hc & _).
  destruct (callbacks_change_only_the_browser cs e0)
    as (e1 & Hrun1 & _ & Hkept & _).
  assert (e1 = e) as -> by congruence.
  destruct Hc as (w' & Hw' & _ & Hr & _).
  eexists e, _, _, _. split; [assumption|].
  split; [rewrite Hkept, Hatt; reflexivity|].
  unfold registeredRelays, lookedUp. rewrite Hw', Hr. cbn.
  repeat split; try congruence.
  intros a [<-|[<-|[<-|[]]]]; assumption.
Qed.

Lemma handle_events (c : Callback) (e : Editor File)
    (w : WebBrowserComponent File) :
  webView e = Some w ->
  exists e' w',
    handle c e = Some (tt, e')
    /\ webView e' = Some w'
    /\ emittedEvents w'
       = emittedEvents w
         ++ repeat visualizerData (visibleTicks [c] (browserVisible w))
    /\ visibleTicks [c; TimerTick] (browserVisible w)
       = visibleTicks [c] (browserVisible w)
         + (if browserVisible w' then 1 else 0).
Proof.
  intros Hw. destruct c; cbn [handle];
    unfold timerCallback, sendVisualizerData, paint, resized, provideResource,
      bind, gets, modify, ret; rewrite ?Hw.
  - eexists; eexists. split; [reflexivity|]. split; [reflexivity|].
    unfold emitEventIfBrowserIsVisible.
    destruct (browserVisible w) eqn:Hv; cbn; rewrite ?Hv, ?app_nil_r;
      now split.
  - exists e, w. cbn. rewrite app_nil_r. repeat split; [assumption|lia].
  - eexists; eexists. split; [reflexivity|]. split; [reflexivity|].
    cbn. rewrite app_nil_r. split; [reflexivity|lia].
  - exists e, w. cbn. rewrite app_nil_r.
    split; [now destruct (resourceProviderOption (browserOptions w))|].
    repeat split; [assumption|lia].
  - eexists; eexists. split; [reflexivity|]. split; [reflexivity|].
    cbn. rewrite app_nil_r. now split.
Qed.

Lemma visibleTicks_cons (c : Callback) (cs : list Callback)
    (showing showing' : bool) :
  visibleTicks [c; TimerTick] showing
  = visibleTicks [c] showing + (if showing' then 1 else 0) ->
  visibleTicks (c :: cs) showing
  = visibleTicks [c] showing + visibleTicks cs showing'.
Proof.
  destruct c; cbn; intros Hstep;
    try (assert (showing' = showing) as ->
           by (destruct showing, showing'; (reflexivity || lia)));
    try reflexivity.
  - lia.
  - assert (showing' = visible) as ->
      by (destruct visible, showing'; (reflexivity || lia)).
    reflexivity.
Qed.

Lemma run_events (cs : list Callback) (e : Editor File)
    (w : WebBrowserComponent File) :
  webView e = Some w ->
  exists e' w',
    run cs e = Some e'
    /\ webView e' = Some w'
    /\ emittedEvents w'
       = emittedEvents w
         ++ repeat visualizerData (visibleTicks cs (browserVisible w)).
Proof.
  revert e w; induction cs as [|c cs IH]; intros e w Hw.
  - exists e, w. cbn. now rewrite app_nil_r.
  - destruct (handle_events c e w Hw) as (e1 & w1 & Hstep & Hw1 & Hev1 & Hticks).
    destruct (IH e1 w1 Hw1) as (e2 & w2 & Hrun & Hw2 & Hev2).
    exists e2, w2. cbn [run]. rewrite Hstep.
    split; [assumption|]. split; [assumption|].
    rewrite Hev2, Hev1, <- app_assoc, <- repeat_app.
    now rewrite (visibleTicks_cons c cs _ _ Hticks).
Qed.


(** An editor made by the constructor keeps its browser component, its
    size of 800 by 500 and its 30 Hz timer through every run of callbacks,
    so the null checks of [sendVisualizerData] and [resized] never turn a
    callback away; the destructor is what stops the timer. *)
Theorem editor_keeps_browser_size_and_timer
    (p : Processor) (e0 : Editor File) :
  createEditor build p = Some e0 ->
  forall cs, exists e e',
    run cs e0 = Some e
    /\ webView e <> None
    /\ editorSize e = (800, 500)
    /\ timerHz e = Some 30
    /\ Editor_delete e = Some (tt, e')
    /\ timerHz e' = None.
Proof.
  intros He cs. pose proof (createEditor_cases p) as Hcases.
  destruct (getParameter p (gain (paramIDs build))); [|congruence].
  destruct (getParameter p (mix (paramIDs build))); [|congruence].
  destruct (getParameter p (bypass (paramIDs build))); [|congruence].
  destruct Hcases as (e' & w & He' & _ & Hw & _ & _ & Hsize & Htimer & _).
  assert (e' = e0) as -> by congruence.
  destruct (run_events cs e0 w Hw) as (e & w' & Hrun & Hw' & _).
  destruct (callbacks_change_only_the_browser cs e0)
    as (e1 & Hrun1 & _ & _ & _ & Hs & Ht & _).
  assert (e1 = e) as -> by congruence.
  exists e. eexists. split; [assumption|].
  split; [congruence|]. split; [congruence|]. split; [congruence|].
  split; reflexivity.
Qed.

(** Whenever [resized] is called on an editor made by the constructor, the
    browser component is given the whole of the editor, 800 by 500 from
    the origin. *)
Theorem resized_fills_the_editor (p : Processor) (e0 : Editor File) :
  createEditor build p = Some e0 ->
  forall cs, exists e w,
    run (cs ++ [Resized]) e0 = Some e
    /\ webView e = Some w
    /\ browserBounds w = (0, 0, 800, 500).
Proof.
  intros He cs.
  destruct (editor_keeps_browser_size_and_timer p e0 He cs)
    as (e1 & _ & Hrun & Hw & Hsize & _).
  destruct (webView e1) as [w1|] eqn:Hw1; [|congruence].
  eexists; eexists. rewrite run_app, Hrun. cbn [run handle].
  unfold resized, bind, gets, modify. rewrite Hw1, Hsize.
  split; [reflexivity|]. split; reflexivity.
Qed.

(** In an editor made by the constructor, at any later time, every request
    the browser passes to the provider is answered from Resources/WebUI
    beside the executable, found or not, and leaves the editor as it was. *)
Theorem requests_are_served_from_the_asset_root
    (p : Processor) (e0 : Editor File) :
  createEditor build p = Some e0 ->
  forall cs url, exists e,
    run cs e0 = Some e
    /\ resourcesDir e = assetRoot
    /\ provideResource url e = Some (resourceProvider assetRoot url, e)
    /\ handle (ResourceRequested url) e = Some (tt, e).
Proof.
  intros He cs url. apply createEditor_constructed in He as [Hc0 _].
  destruct (run_constructed build cs e0 Hc0) as (e & Hrun & Hc & _).
  exists e. split; [assumption|].
  pose proof (provideResource_constructed build url e Hc) as Hp.
  destruct Hc as (w & _ & _ & _ & _ & _ & Hdir).
  split; [exact Hdir|]. unfold assetRoot. rewrite <- Hdir.
  split; [assumption|]. cbn [handle]. unfold bind. now rewrite Hp.
Qed.

End ConstructionFacts.

(** ** Build modes *)

(** The build mode decides the start page and nothing else: two builds
    that look up the same parameter ids give editors with the same relays,
    attachments, resources directory, size and timer, and browser
    components with the same options (the resource provider included), the
    same visibility and the same delivered events. *)
Theorem build_mode_changes_only_the_start_page
    {File : Type} `{FileApi File} (b1 b2 : Build) (p : Processor)
    (e1 e2 : Editor File) :
  paramIDs b1 = paramIDs b2 ->
  createEditor b1 p = Some e1 ->
  createEditor b2 p = Some e2 ->
  ownedRelays e1 = ownedRelays e2
  /\ attachments e1 = attachments e2
  /\ resourcesDir e1 = resourcesDir e2
  /\ editorSize e1 = editorSize e2
  /\ timerHz e1 = timerHz e2
  /\ option_map browserOptions (webView e1)
     = option_map browserOptions (webView e2)
  /\ visibilityGuard e1 = visibilityGuard e2
  /\ events e1 = events e2.
Proof.
  intros Hids.
  unfold createEditor, Editor_new, setupWebView, setupRelaysAndAttachments,
    makeAttachment.
  rewrite <- Hids.
  destruct (DEV_MODE b1), (DEV_MODE b2); cbn;
    destruct (getParameter p (gain (paramIDs b1))); cbn; try discriminate;
    destruct (getParameter p (mix (paramIDs b1))); cbn; try discriminate;
    destruct (getParameter p (bypass (paramIDs b1))); cbn; try discriminate;
    intros [= <-] [= <-]; cbn; repeat split.
Qed.

(** ** The further properties at work on the installed plugin *)

Section InstalledFurther.

Import PosixDisk.

Lemma createEditor_log_witness :
  history editor = constructorLog production.
Proof.
  exact (@createEditor_log Path installedApi production processor editor
           installed_production).
Defined.

Lemma attachments_bind_witness :
  exists e g m b,
    run [TimerTick; Resized] editor = Some e
    /\ attachments e = [Some g; Some m; Some b]
    /\ map attachedRelay [g; m; b] = registeredRelays e
    /\ map (fun a => paramID (attachedParameter a)) [g; m; b]
       = lookedUp production
    /\ (forall a, In a [g; m; b] -> In (attachedParameter a) (apvts processor)).
Proof.
  exact (@attachments_bind_relays_to_parameters Path installedApi production
           processor editor installed_production [TimerTick; Resized]).
Defined.


Lemma editor_keeps_witness :
  exists e e',
    run [BrowserShown false; TimerTick; Resized] editor = Some e
    /\ webView e <> None
    /\ editorSize e = (800, 500)
    /\ timerHz e = Some 30
    /\ Editor_delete e = Some (tt, e')
    /\ timerHz e' = None.
Proof.
  exact (@editor_keeps_browser_size_and_timer Path installedApi production
           processor editor installed_production
           [BrowserShown false; TimerTick; Resized]).
Defined.

Lemma resized_witness :
  exists e w,
    run ([TimerTick] ++ [Resized]) editor = Some e
    /\ webView e = Some w
    /\ browserBounds w = (0, 0, 800, 500).
Proof.
  exact (@resized_fills_the_editor Path installedApi production processor
           editor installed_production [TimerTick]).
Defined.

Lemma requests_witness :
  exists e,
    run [TimerTick] devEditor = Some e
    /\ resourcesDir e = @assetRoot Path installedApi
    /\ provideResource "/x.js" e
       = Some (@resourceProvider Path installedApi
                 (@assetRoot Path installedApi) "/x.js", e)
    /\ handle (ResourceRequested "/x.js") e = Some (tt, e).
Proof.
  exact (@requests_are_served_from_the_asset_root Path installedApi
           development processor devEditor installed_development
           [TimerTick] "/x.js").
Defined.

Lemma build_mode_witness :
  ownedRelays editor = ownedRelays devEditor
  /\ attachments editor = attachments devEditor
  /\ resourcesDir editor = resourcesDir devEditor
  /\ editorSize editor = editorSize devEditor
  /\ timerHz editor = timerHz devEditor
  /\ option_map browserOptions (webView editor)
     = option_map browserOptions (webView devEditor)
  /\ visibilityGuard editor = visibilityGuard devEditor
  /\ events editor = events devEditor.
Proof.
  exact (@build_mode_changes_only_the_start_page Path installedApi
           production development processor editor devEditor eq_refl
           installed_production installed_development).
Defined.

End InstalledFurther.
